(** * RoboBrain 2.0 planning chat: session state and pipeline orchestration

    A shallow embedding of [scripts/planning_chat.py] (the planning session
    tracker, the template engine, the task-extraction heuristic and the
    four-stage planning pipeline) and of the bounded conversation memory,
    with the properties of the specification stated and proved over it.

    Conventions.
    - A Python [str] is a [string], one [ascii] per code point: the
      development covers the code points below 256.
    - A Python [dict] with string keys is a [gmap string _] where only
      lookups matter ([**kwargs], the result of [chat.ask], the files by
      path) and a list of pairs where the order of the entries matters
      ([PLANNING_TEMPLATES], [replacements]); [d.get(k, v)] is
      [default v (d !! k)].
    - [print] calls have no effect on any value the program computes and
      are left out.
    - The executor runs in a state monad over its own fields, the state of
      the [random] module and the file system; [None] is a raised
      exception.
    - [datetime.now()] is an argument of the operation that reads it. *)

From Stdlib Require Import Ascii String DecimalString.
From stdpp Require Import base option list gmap strings.

Local Open Scope nat_scope.
Local Open Scope stdpp_scope.

(** ** Python string primitives *)

Module PyStr.

(** [len(s)]. *)
Definition len (s : string) : nat := String.length s.

(** [c.isspace()] for the code points below 256: the ASCII white space
    9-13 and 28-32, NEL (133) and the no-break space (160). *)
Definition isspace (c : ascii) : bool :=
  let n := nat_of_ascii c in
  ((9 <=? n) && (n <=? 13)) || ((28 <=? n) && (n <=? 32))
  || (n =? 133) || (n =? 160).

(** [s.startswith(p)]. *)
Fixpoint startswith (s p : string) : bool :=
  match p, s with
  | EmptyString, _ => true
  | String _ _, EmptyString => false
  | String a p', String b s' => Ascii.eqb a b && startswith s' p'
  end.

(** [s[n:]] for [0 <= n]. *)
Fixpoint drop (n : nat) (s : string) : string :=
  match n, s with
  | O, _ => s
  | S _, EmptyString => EmptyString
  | S n', String _ s' => drop n' s'
  end.

(** [s[:n]] for [0 <= n]. *)
Fixpoint take (n : nat) (s : string) : string :=
  match n, s with
  | O, _ => EmptyString
  | S _, EmptyString => EmptyString
  | S n', String c s' => String c (take n' s')
  end.

(** [s.lstrip()]. *)
Fixpoint lstrip (s : string) : string :=
  match s with
  | EmptyString => EmptyString
  | String c s' => if isspace c then lstrip s' else s
  end.

(** [s.rstrip()]: a character is kept unless it is white space and
    everything after it is stripped too. *)
Fixpoint rstrip (s : string) : string :=
  match s with
  | EmptyString => EmptyString
  | String c s' =>
      match rstrip s' with
      | EmptyString => if isspace c then EmptyString else String c EmptyString
      | r => String c r
      end
  end.

(** [s.strip()]. *)
Definition strip (s : string) : string := rstrip (lstrip s).

(** [s.split(sep)] for a one-character separator: never the empty list,
    [''.split(sep) == ['']]. *)
Fixpoint split (sep : ascii) (s : string) : list string :=
  match s with
  | EmptyString => [EmptyString]
  | String c s' =>
      if Ascii.eqb c sep then EmptyString :: split sep s'
      else match split sep s' with
           | [] => [String c EmptyString]
           | line :: lines => String c line :: lines
           end
  end.

(** The scan of [s.replace(old, new)] for a non-empty [old]: left to
    right, occurrences do not overlap. [skip] counts the characters of an
    occurrence already replaced that are still to be passed over. *)
Fixpoint replace_from (old new : string) (skip : nat) (s : string) : string :=
  match s with
  | EmptyString => EmptyString
  | String c s' =>
      match skip with
      | S k => replace_from old new k s'
      | O =>
          if startswith s old
          then new +:+ replace_from old new (len old - 1) s'
          else String c (replace_from old new 0 s')
      end
  end.

(** With an empty [old], Python puts [new] before every character and at
    the end. *)
Fixpoint interleave (new s : string) : string :=
  match s with
  | EmptyString => new
  | String c s' => new +:+ String c (interleave new s')
  end.

(** [s.replace(old, new)]. *)
Definition replace (s old new : string) : string :=
  match old with
  | EmptyString => interleave new s
  | String _ _ => replace_from old new 0 s
  end.

(** [sep.join(parts)]. *)
Fixpoint join (sep : string) (parts : list string) : string :=
  match parts with
  | [] => EmptyString
  | [p] => p
  | p :: rest => p +:+ sep +:+ join sep rest
  end.

(** [sub in s]. *)
Fixpoint contains (s sub : string) : bool :=
  match s with
  | EmptyString => startswith s sub
  | String _ s' => startswith s sub || contains s' sub
  end.

(** [c * n] for a character [c]. *)
Fixpoint repeat (c : ascii) (n : nat) : string :=
  match n with
  | O => EmptyString
  | S n' => String c (repeat c n')
  end.

(** [str(n)] for a natural number. *)
Definition of_nat (n : nat) : string := NilEmpty.string_of_uint (Nat.to_uint n).

(** Truthiness of a string: [bool(s)]. *)
Definition truthy (s : string) : bool :=
  match s with EmptyString => false | String _ _ => true end.

(** [x or d] where [x] is [None] or a string. *)
Definition or_else (x : option string) (d : string) : string :=
  match x with
  | Some s => if truthy s then s else d
  | None => d
  end.

End PyStr.

(** ** Task extraction *)

Definition newline : ascii := "010"%char.

Definition task_prefixes : list string :=
  ["The next step is to "; "You should "; "First, "; "1. "; "- "].

(** The body of the inner loop: [if line.startswith(prefix): line = line[len(prefix):]]. *)
Definition remove_prefix (line prefix : string) : string :=
  if PyStr.startswith line prefix then PyStr.drop (PyStr.len prefix) line else line.

(** The [for line in lines] loop of [_extract_task_from_answer]; [None] is
    Python's [None]. *)
Fixpoint extract_task_loop (lines : list string) : option string :=
  match lines with
  | [] => None
  | line :: rest =>
      let line := PyStr.strip line in
      if PyStr.truthy line && (10 <? PyStr.len line)
      then Some (PyStr.take 100 (fold_left remove_prefix task_prefixes line))
      else extract_task_loop rest
  end.

Definition _extract_task_from_answer (answer : string) : option string :=
  extract_task_loop (PyStr.split newline answer).

(** ** Planning question templates *)

Record TemplateEntry := {
  description : string;
  templates : list string
}.

(** [d.get(k)] / [k in d] for a dict written as a literal: the first entry
    with the key. *)
Fixpoint dict_get {V : Type} (d : list (string * V)) (k : string) : option V :=
  match d with
  | [] => None
  | (k', v) :: d' => if String.eqb k' k then Some v else dict_get d' k
  end.

Definition PLANNING_TEMPLATES : list (string * TemplateEntry) := [
  ("planning",
   {| description := "Determine the next step to achieve a long-horizon goal";
      templates := [
        "The objective is {goal}, what should be the next step to move forward?";
        "In pursuit of achieving {goal}, what's the next action to take?";
        "To reach the goal of {goal}, which task should be prioritized next?";
        "Given the goal of {goal}, what is the most logical next move?";
        "With the aim of {goal}, what should you focus on next?" ] |});
  ("planning_with_context",
   {| description := "Determine next step given completed tasks";
      templates := [
        "So far, you've completed these steps: {completed_steps}. What's the next move to achieve the goal of {goal}?";
        "With the following steps completed: {completed_steps}. What is the next logical step toward {goal}?";
        "Considering the goal of {goal}, and having done {completed_steps}, what should you do next?";
        "You are working towards {goal}. After completing steps {completed_steps}, what's the next immediate task?";
        "Given your progress so far ({completed_steps}), what's the next step toward achieving {goal}?" ] |});
  ("planning_remaining",
   {| description := "Determine the next N steps to complete a goal";
      templates := [
        "With {goal} as the goal and the steps {completed_steps} completed, what are the next {num_steps} things to do?";
        "To work toward {goal}, what are the next {num_steps} steps after completing {completed_steps}?";
        "Here's what's been done so far: {completed_steps}. What are the next {num_steps} tasks to take toward the goal of {goal}?";
        "The goal is {goal}. After completing {completed_steps}, what are the next {num_steps} steps you should take?";
        "Given the progress so far: {completed_steps}, what's the next set of {num_steps} steps to move closer to {goal}?" ] |});
  ("future_prediction",
   {| description := "Predict what will happen after a task";
      templates := [
        "Based on the current situation, what is expected to happen after {last_task}?";
        "What do you think will happen after {last_task} is completed?";
        "Considering the current sequence of tasks, what's likely to occur after {last_task}?";
        "Given the context, what will most likely happen following {last_task}?";
        "After {last_task}, what's the most probable next event?" ] |});
  ("success_detection",
   {| description := "Determine if a task was completed successfully";
      templates := [
        "Was {task} completed successfully?";
        "Has {task} been fully carried out?";
        "Has {task} reached completion?";
        "Was {task} finalized?";
        "Can we say that {task} was accomplished?" ] |});
  ("affordance_positive",
   {| description := "Determine if a task can be done right now";
      templates := [
        "Is {task} something that can be accomplished right now?";
        "Can {task} be initiated at this moment?";
        "Is it feasible to begin {task} immediately?";
        "Is now a suitable time to carry out {task}?";
        "Can you proceed with {task} given the current conditions?" ] |});
  ("affordance_negative",
   {| description := "Determine if a specific task is currently being done";
      templates := [
        "Is {task} what you're working on at the moment?";
        "Are you currently engaged in {task}?";
        "Is this {task} you're focused on right now?";
        "Is this {task} you're handling at present?";
        "Are you doing {task} at this very moment?" ] |});
  ("generative_affordance",
   {| description := "Determine what actions are possible right now";
      templates := [
        "What can you do at this moment?";
        "Which task is possible to start right now?";
        "Given the current situation, what action can be taken?";
        "What's the next available action?";
        "Considering the circumstances, what task can you begin now?" ] |});
  ("past_description",
   {| description := "Describe what task was just completed";
      templates := [
        "What was the last task completed?";
        "What just occurred?";
        "What was the most recent action taken?";
        "What task did you just finish?";
        "What happened immediately before this?" ] |})
].

(** ** Planning session manager *)

Module PlanningSession.

(** One entry of [task_history]: the dict with keys [task], [status] and
    [timestamp]. *)
Record HistoryEntry := {
  task : string;
  status : string;
  timestamp : string
}.

Record t := mk {
  goal : option string;
  completed_tasks : list string;
  current_task : option string;
  task_history : list HistoryEntry;
  run_dir : option string
}.

(** [__init__]. *)
Definition init : t :=
  {| goal := None; completed_tasks := []; current_task := None;
     task_history := []; run_dir := None |}.

Definition set_goal (self : t) (g : string) : t :=
  {| goal := Some g; completed_tasks := []; current_task := None;
     task_history := task_history self; run_dir := run_dir self |}.

(** [now] is the value of [datetime.now().isoformat()] at the call. *)
Definition add_completed_task (self : t) (tk now : string) : t :=
  {| goal := goal self;
     completed_tasks := completed_tasks self ++ [tk];
     current_task := current_task self;
     task_history :=
       task_history self
       ++ [{| task := tk; status := "completed"; timestamp := now |}];
     run_dir := run_dir self |}.

Definition set_current_task (self : t) (tk : string) : t :=
  {| goal := goal self; completed_tasks := completed_tasks self;
     current_task := Some tk; task_history := task_history self;
     run_dir := run_dir self |}.

(** The list comprehension over [enumerate(self.completed_tasks)], with
    [i] the running index. *)
Fixpoint numbered_from (i : nat) (tasks : list string) : list string :=
  match tasks with
  | [] => []
  | tk :: rest => (PyStr.of_nat (i + 1) +:+ "-" +:+ tk) :: numbered_from (S i) rest
  end.

Definition get_completed_steps_str (self : t) : string :=
  match completed_tasks self with
  | [] => "none"
  | tasks => PyStr.join ", " (numbered_from 0 tasks)
  end.

Definition get_last_task (self : t) : string :=
  match last (completed_tasks self) with
  | Some tk => tk
  | None => "starting the task"
  end.

Definition reset (self : t) : t :=
  {| goal := None; completed_tasks := []; current_task := None;
     task_history := []; run_dir := run_dir self |}.

Definition set_run_dir (self : t) (d : option string) : t :=
  {| goal := goal self; completed_tasks := completed_tasks self;
     current_task := current_task self; task_history := task_history self;
     run_dir := d |}.

(** The mutating operations of the class, as data. *)
Inductive op :=
| SetGoal (g : string)
| AddCompletedTask (tk now : string)
| SetCurrentTask (tk : string)
| Reset.

Definition step (self : t) (o : op) : t :=
  match o with
  | SetGoal g => set_goal self g
  | AddCompletedTask tk now => add_completed_task self tk now
  | SetCurrentTask tk => set_current_task self tk
  | Reset => reset self
  end.

Definition run (ops : list op) : t := fold_left step ops init.

(** The invariant of the session: no more completed tasks than history
    entries. *)
Definition session_inv (self : t) : Prop :=
  length (completed_tasks self) ≤ length (task_history self).

End PlanningSession.

(** ** Conversation memory

    The scripts import [ConversationMemory] from [conversation_memory.py];
    its bounded turn store is modelled from the specification (sections 3
    and 4.1) and from its unit test in [test_multi_turn.py]. *)

Module ConversationMemory.

(** Modelled from the spec: the role of a turn of [ConversationMemory],
    "enum {user, assistant}". *)
Inductive Role := User | Assistant.

(** Modelled from the spec: a turn of [ConversationMemory], with its
    role, content, optional image reference, optional task tag and
    timestamp. *)
Record Turn := {
  role : Role;
  content : string;
  image_ref : option string;
  task_tag : option string;
  timestamp : string
}.

(** Modelled from the spec: the state of [ConversationMemory], the
    ordered turns, the current image and the bound on retained turns. *)
Record t := mk {
  turns : list Turn;
  current_image : option string;
  max_turns : nat
}.

(** Modelled from the spec: the constructor of [ConversationMemory]
    ("created empty", with the bound [max_turns]). *)
Definition init (max : nat) : t :=
  {| turns := []; current_image := None; max_turns := max |}.

(** Modelled from the spec: the eviction of [ConversationMemory] ("if the
    combined length exceeds [max_turns], evict from the front until the
    bound holds"), one turn at a time from the front. *)
Fixpoint evict (max : nat) (ts : list Turn) : list Turn :=
  match ts with
  | [] => []
  | _ :: rest => if length ts <=? max then ts else evict max rest
  end.

(** Modelled from the spec: [append_user(text, image_ref?, task_tag?)] of
    [ConversationMemory] ("append a Turn", then evict); an image given
    with the turn becomes the current image, as the unit test asserts. *)
Definition add_user_turn (self : t) (text : string)
    (image task : option string) (now : string) : t :=
  {| turns :=
       evict (max_turns self)
         (turns self ++ [{| role := User; content := text; image_ref := image;
                            task_tag := task; timestamp := now |}]);
     current_image :=
       match image with Some i => Some i | None => current_image self end;
     max_turns := max_turns self |}.

(** Modelled from the spec: [append_assistant(text)] of
    [ConversationMemory]. *)
Definition add_assistant_turn (self : t) (text now : string) : t :=
  {| turns :=
       evict (max_turns self)
         (turns self ++ [{| role := Assistant; content := text; image_ref := None;
                            task_tag := None; timestamp := now |}]);
     current_image := current_image self;
     max_turns := max_turns self |}.

(** The appends, as data. *)
Inductive op :=
| AddUser (text : string) (image task : option string) (now : string)
| AddAssistant (text now : string).

(** The turn an append creates. *)
Definition turn_of (o : op) : Turn :=
  match o with
  | AddUser text image task now =>
      {| role := User; content := text; image_ref := image;
         task_tag := task; timestamp := now |}
  | AddAssistant text now =>
      {| role := Assistant; content := text; image_ref := None;
         task_tag := None; timestamp := now |}
  end.

Definition step (self : t) (o : op) : t :=
  match o with
  | AddUser text image task now => add_user_turn self text image task now
  | AddAssistant text now => add_assistant_turn self text now
  end.

Definition run (max : nat) (ops : list op) : t := fold_left step ops (init max).

(** The loop of the unit test: [n] question/answer pairs. *)
Fixpoint question_answer_pairs (i n : nat) : list op :=
  match n with
  | O => []
  | S n' =>
      AddUser ("Question " +:+ PyStr.of_nat i) None None ""
      :: AddAssistant ("Answer " +:+ PyStr.of_nat i) ""
      :: question_answer_pairs (S i) n'
  end.

End ConversationMemory.

(** ** Pipeline results and the file system *)

(** The dict [ask_planning] returns. *)
Record StepRecord := {
  query_type : string;
  prompt : string;
  answer : string;
  thinking : string;
  success : bool
}.

(** The [results] dict of [run_planning_pipeline]. *)
Record PipelineResults := {
  results_goal : string;
  results_steps : list StepRecord;
  results_success : bool;
  results_timestamp : string
}.

(** What a file holds: the value [json.dump] serialised, or text. *)
Inductive FileContent :=
| JsonFile (r : PipelineResults)
| TextFile (s : string).

(** Directories created and files written, by path. Creating a directory
    and writing a file always succeed. *)
Record FileSystem := {
  dirs : gset string;
  files : gmap string FileContent
}.

Definition RESULTS_BASE_DIR : string := "results/planning".

(** [d / name] for paths. *)
Definition path_join (d name : string) : string := d +:+ "/" +:+ name.

(** The ancestors of a path: what stands before each "/" of it, [pre]
    being the part of the path already read. *)
Fixpoint parents_from (pre p : string) : list string :=
  match p with
  | EmptyString => []
  | String c p' =>
      if Ascii.eqb c "/"%char
      then (if PyStr.truthy pre then [pre] else []) ++ parents_from (pre +:+ "/") p'
      else parents_from (pre +:+ String c "") p'
  end.

Definition parents (p : string) : list string := parents_from "" p.

(** [d.mkdir(parents=True, exist_ok=True)]: the directory and its
    ancestors are there afterwards. *)
Definition mkdir (d : string) (fsys : FileSystem) : FileSystem :=
  {| dirs := {[ d ]} ∪ list_to_set (parents d) ∪ dirs fsys; files := files fsys |}.

Definition write_file (p : string) (c : FileContent) (fsys : FileSystem) : FileSystem :=
  {| dirs := dirs fsys; files := <[ p := c ]> (files fsys) |}.

(** The text [_save_pipeline_results] writes for the steps, [i] being the
    index [enumerate(results['steps'], 1)] gives. *)
Fixpoint summary_steps (i : nat) (steps : list StepRecord) : string :=
  match steps with
  | [] => ""
  | step :: rest =>
      PyStr.repeat "-" 40 +:+ String newline ""
      +:+ "Step " +:+ PyStr.of_nat i +:+ ": " +:+ query_type step +:+ String newline ""
      +:+ PyStr.repeat "-" 40 +:+ String newline ""
      +:+ "Prompt: " +:+ prompt step +:+ String newline (String newline "")
      +:+ "Answer:" +:+ String newline "" +:+ answer step
      +:+ String newline (String newline "")
      +:+ (if PyStr.truthy (thinking step)
           then "Thinking:" +:+ String newline "" +:+ thinking step
                +:+ String newline (String newline "")
           else "")
      +:+ summary_steps (S i) rest
  end.

Definition summary_header (results : PipelineResults) : string :=
  PyStr.repeat "=" 60 +:+ String newline ""
  +:+ "PLANNING PIPELINE SUMMARY" +:+ String newline ""
  +:+ PyStr.repeat "=" 60 +:+ String newline (String newline "")
  +:+ "Goal: " +:+ results_goal results +:+ String newline ""
  +:+ "Timestamp: " +:+ results_timestamp results +:+ String newline (String newline "").

Definition summary_text (results : PipelineResults) : string :=
  summary_header results +:+ summary_steps 1 (results_steps results).

(** ** Planning executor *)

Section Executor.

(** The collaborators of the executor: the [MultiTurnInference] object
    [self.chat] with its [set_image] and [ask] methods ([ask] returns the
    result dict and the new state of the chat), and the state of Python's
    [random] module with the number it draws next. *)
Context {Chat Rng : Type}.
Variable chat_set_image : Chat → string → Chat.
Variable chat_ask : Chat → string → string → bool → gmap string string * Chat.
Variable rand_draw : Rng → nat * Rng.

(** The fields of [PlanningExecutor] ([chat], [session], [run_dir]) and
    what it acts on: the random state and the file system. *)
Record World := mkWorld {
  chat : Chat;
  session : PlanningSession.t;
  run_dir : option string;
  rng : Rng;
  fs : FileSystem
}.

(** State passing with exceptions. *)
Definition M (A : Type) : Type := World → option (A * World).

Definition ret {A : Type} (a : A) : M A := fun w => Some (a, w).

Definition bind {A B : Type} (m : M A) (k : A → M B) : M B :=
  fun w => match m w with
           | Some (a, w') => k a w'
           | None => None
           end.

Notation "x <- m ;; k" := (bind m (fun x => k))
  (at level 100, m at next level, right associativity).
Notation "m ;;; k" := (bind m (fun _ => k))
  (at level 100, right associativity).

Definition get_session : M PlanningSession.t := fun w => Some (session w, w).

Definition modify_session (f : PlanningSession.t → PlanningSession.t) : M unit :=
  fun w => Some (tt, {| chat := chat w; session := f (session w);
                        run_dir := run_dir w; rng := rng w; fs := fs w |}).

Definition get_run_dir : M (option string) := fun w => Some (run_dir w, w).

Definition modify_fs (f : FileSystem → FileSystem) : M unit :=
  fun w => Some (tt, {| chat := chat w; session := session w;
                        run_dir := run_dir w; rng := rng w; fs := f (fs w) |}).

(** [self.chat.ask(prompt, task=task, enable_thinking=enable_thinking)]. *)
Definition ask (prompt task : string) (enable_thinking : bool)
  : M (gmap string string) :=
  fun w => let '(result, c) := chat_ask (chat w) prompt task enable_thinking in
           Some (result, {| chat := c; session := session w;
                            run_dir := run_dir w; rng := rng w; fs := fs w |}).

(** [random.choice(seq)]: [IndexError] on an empty sequence, otherwise the
    element at an index below [len(seq)] fixed by the draw. *)
Definition random_choice (seq : list string) : M string :=
  fun w => match seq with
           | [] => None
           | _ :: _ =>
               let '(d, g) := rand_draw (rng w) in
               match seq !! (d mod length seq) with
               | Some x => Some (x, {| chat := chat w; session := session w;
                                       run_dir := run_dir w; rng := g; fs := fs w |})
               | None => None
               end
           end.

(** [set_image]; [now] is [datetime.now().strftime("%Y%m%d_%H%M%S")]. *)
Definition set_image (image_path now : string) : M unit :=
  fun w =>
    let d := path_join RESULTS_BASE_DIR ("run_" +:+ now) in
    Some (tt, {| chat := chat_set_image (chat w) image_path;
                 session := PlanningSession.set_run_dir (session w) (Some d);
                 run_dir := Some d;
                 rng := rng w;
                 fs := mkdir d (fs w) |}).

(** The [replacements] dict of [generate_prompt], in insertion order. *)
Definition replacements (s : PlanningSession.t) (kwargs : gmap string string)
  : list (string * string) :=
  [ ("goal",
     default (PyStr.or_else (PlanningSession.goal s) "complete the task")
       (kwargs !! "goal"));
    ("completed_steps",
     default (PlanningSession.get_completed_steps_str s) (kwargs !! "completed_steps"));
    ("last_task",
     default (PlanningSession.get_last_task s) (kwargs !! "last_task"));
    ("task",
     default (PyStr.or_else (PlanningSession.current_task s) "the current task")
       (kwargs !! "task"));
    ("num_steps", default "5" (kwargs !! "num_steps")) ].

(** The loop [for key, value in replacements.items()]. *)
Definition fill_template (template : string) (repl : list (string * string)) : string :=
  fold_left
    (fun tpl kv => PyStr.replace tpl ("{" +:+ kv.1 +:+ "}") kv.2)
    repl template.

Definition generate_prompt (qtype : string) (kwargs : gmap string string) : M string :=
  match dict_get PLANNING_TEMPLATES qtype with
  | None => ret (default "Describe what you see." (kwargs !! "custom_prompt"))
  | Some entry =>
      template <- random_choice (templates entry) ;;
      s <- get_session ;;
      ret (fill_template template (replacements s kwargs))
  end.

Definition ask_planning (qtype : string) (enable_thinking : bool)
    (kwargs : gmap string string) : M StepRecord :=
  p <- generate_prompt qtype kwargs ;;
  result <- ask p "general" enable_thinking ;;
  ret {| query_type := qtype;
         prompt := p;
         answer := default "" (result !! "answer");
         thinking := default "" (result !! "thinking");
         success := true |}.

Definition _save_pipeline_results (results : PipelineResults) : M unit :=
  d <- get_run_dir ;;
  match d with
  | None => ret tt
  | Some dir =>
      modify_fs (write_file (path_join dir "pipeline_results.json") (JsonFile results)) ;;;
      modify_fs (write_file (path_join dir "pipeline_summary.txt")
                   (TextFile (summary_text results)))
  end.

(** [results["steps"].append(step)]. *)
Definition append_step (results : PipelineResults) (step : StepRecord) : PipelineResults :=
  {| results_goal := results_goal results;
     results_steps := results_steps results ++ [step];
     results_success := results_success results;
     results_timestamp := results_timestamp results |}.

(** [run_planning_pipeline]; [now] is [datetime.now().isoformat()]. *)
Definition run_planning_pipeline (goal : string) (enable_thinking : bool)
    (now : string) : M PipelineResults :=
  modify_session (fun s => PlanningSession.set_goal s goal) ;;;
  let results := {| results_goal := goal; results_steps := [];
                    results_success := true; results_timestamp := now |} in
  step1 <- ask_planning "generative_affordance" enable_thinking ∅ ;;
  let results := append_step results step1 in
  step2 <- ask_planning "planning" enable_thinking {[ "goal" := goal ]} ;;
  let results := append_step results step2 in
  let first_task := _extract_task_from_answer (answer step2) in
  match first_task with
  | Some tk =>
      if PyStr.truthy tk
      then modify_session (fun s => PlanningSession.set_current_task s tk)
      else ret tt
  | None => ret tt
  end ;;;
  step3 <- ask_planning "affordance_positive" enable_thinking
             {[ "task" := PyStr.or_else first_task "the first step" ]} ;;
  let results := append_step results step3 in
  step4 <- ask_planning "planning_remaining" enable_thinking
             (<[ "num_steps" := "5" ]> {[ "goal" := goal ]}) ;;
  let results := append_step results step4 in
  _save_pipeline_results results ;;;
  ret results.

(** *** The effects of the executor, written out *)

(** The world after [generate_prompt] for a known query type: one draw
    is consumed. *)
Definition after_draw (w : World) : World :=
  {| chat := chat w; session := session w; run_dir := run_dir w;
     rng := (rand_draw (rng w)).2; fs := fs w |}.

(** The world after [ask_planning] asked the prompt [p]. *)
Definition after_ask (w : World) (p : string) (enable_thinking : bool) : World :=
  {| chat := (chat_ask (chat w) p "general" enable_thinking).2;
     session := session w; run_dir := run_dir w;
     rng := (rand_draw (rng w)).2; fs := fs w |}.

(** The step record [ask_planning] builds from a prompt and the result
    dict of the chat. *)
Definition step_record (qtype p : string) (result : gmap string string) : StepRecord :=
  {| query_type := qtype; prompt := p;
     answer := default "" (result !! "answer");
     thinking := default "" (result !! "thinking");
     success := true |}.

(** What [_save_pipeline_results] leaves in the file system. *)
Definition saved (d : option string) (results : PipelineResults)
    (fsys : FileSystem) : FileSystem :=
  match d with
  | None => fsys
  | Some dir =>
      write_file (path_join dir "pipeline_summary.txt")
        (TextFile (summary_text results))
        (write_file (path_join dir "pipeline_results.json") (JsonFile results) fsys)
  end.

End Executor.

(** ** Specification-side definitions *)

(** Task extraction as the specification words it: the first line longer
    than 10 characters, prefixes removed, cut at 100 characters; lines are
    taken as they are. *)
Fixpoint extract_task_as_specified_loop (lines : list string) : option string :=
  match lines with
  | [] => None
  | line :: rest =>
      if PyStr.truthy line && (10 <? PyStr.len line)
      then Some (PyStr.take 100 (fold_left remove_prefix task_prefixes line))
      else extract_task_as_specified_loop rest
  end.

Definition extract_task_as_specified (answer : string) : option string :=
  extract_task_as_specified_loop (PyStr.split newline answer).

(** The task stage 3 of the pipeline asks about, given the answer of stage 2. *)
Definition stage3_task (answer2 : string) : string :=
  match _extract_task_from_answer answer2 with
  | Some tk => tk
  | None => "the first step"
  end.

(** The last character of a string. *)
Fixpoint last_char (s : string) : option ascii :=
  match s with
  | EmptyString => None
  | String c EmptyString => Some c
  | String _ s' => last_char s'
  end.

(** The template variables. *)
Inductive TemplateVar := VGoal | VCompletedSteps | VLastTask | VTask | VNumSteps.

Global Instance TemplateVar_eq_dec : EqDecision TemplateVar.
Proof. solve_decision. Defined.

Definition template_vars : list TemplateVar :=
  [VGoal; VCompletedSteps; VLastTask; VTask; VNumSteps].

Definition var_name (v : TemplateVar) : string :=
  match v with
  | VGoal => "goal"
  | VCompletedSteps => "completed_steps"
  | VLastTask => "last_task"
  | VTask => "task"
  | VNumSteps => "num_steps"
  end.

(** The placeholder of a variable, [{name}]. *)
Definition placeholder (v : TemplateVar) : string := "{" +:+ var_name v +:+ "}".

(** What the session holds for a variable, if anything. *)
Definition session_value (s : PlanningSession.t) (v : TemplateVar) : option string :=
  match v with
  | VGoal =>
      match PlanningSession.goal s with
      | Some g => if PyStr.truthy g then Some g else None
      | None => None
      end
  | VCompletedSteps =>
      match PlanningSession.completed_tasks s with
      | [] => None
      | tasks =>
          Some (PyStr.join ", "
                  (zip_with (fun i tk => PyStr.of_nat i +:+ "-" +:+ tk)
                     (seq 1 (length tasks)) tasks))
      end
  | VLastTask => last (PlanningSession.completed_tasks s)
  | VTask =>
      match PlanningSession.current_task s with
      | Some tk => if PyStr.truthy tk then Some tk else None
      | None => None
      end
  | VNumSteps => None
  end.

(** The fixed default of a variable. *)
Definition default_value (v : TemplateVar) : string :=
  match v with
  | VGoal => "complete the task"
  | VCompletedSteps => "none"
  | VLastTask => "starting the task"
  | VTask => "the current task"
  | VNumSteps => "5"
  end.

(** The value of a variable: supplied, else from the session, else the
    default. *)
Definition resolve (s : PlanningSession.t) (kwargs : gmap string string)
    (v : TemplateVar) : string :=
  match kwargs !! var_name v with
  | Some x => x
  | None => default (default_value v) (session_value s v)
  end.

(** The variable whose placeholder starts the string, if any. *)
Definition placeholder_at (s : string) : option TemplateVar :=
  find (fun v => PyStr.startswith s (placeholder v)) template_vars.

(** Substitution of all placeholders at once, in one pass over the
    template: each placeholder occurring in the template is replaced by the
    value of its variable, and the values are not looked at again. *)
Fixpoint substitute_from (val : TemplateVar → string) (skip : nat) (s : string) : string :=
  match s with
  | EmptyString => EmptyString
  | String c s' =>
      match skip with
      | S k => substitute_from val k s'
      | O =>
          match placeholder_at s with
          | Some v => val v +:+ substitute_from val (PyStr.len (placeholder v) - 1) s'
          | None => String c (substitute_from val 0 s')
          end
      end
  end.

Definition substitute (val : TemplateVar → string) (template : string) : string :=
  substitute_from val 0 template.

(** No placeholder occurs in the string. *)
Definition placeholder_free (s : string) : bool :=
  forallb (fun v => negb (PyStr.contains s (placeholder v))) template_vars.

(** A template cut into literal text, inserted values and placeholders. *)
Inductive Chunk :=
| Lit (s : string)
| Val (s : string)
| Hole (v : TemplateVar).

Definition render_chunk (c : Chunk) : string :=
  match c with
  | Lit s => s
  | Val s => s
  | Hole v => placeholder v
  end.

Fixpoint render (cs : list Chunk) : string :=
  match cs with
  | [] => EmptyString
  | c :: cs' => render_chunk c +:+ render cs'
  end.

(** The characters placeholders are made of. *)
Definition placeholder_char (c : ascii) : bool :=
  let n := nat_of_ascii c in
  ((97 <=? n) && (n <=? 122)) || (n =? 95) || (n =? 123) || (n =? 125).

Definition open_brace : ascii := "{"%char.

(** No opening brace in the string. *)
Fixpoint brace_free (s : string) : bool :=
  match s with
  | EmptyString => true
  | String c s' => negb (Ascii.eqb c open_brace) && brace_free s'
  end.

(** The string is empty or starts with a character no placeholder
    contains: nothing before it can run into it to form a placeholder. *)
Definition starts_clear (s : string) : bool :=
  match s with
  | EmptyString => true
  | String c _ => negb (placeholder_char c)
  end.

(** What may follow a placeholder or an inserted value: the end, or literal
    text that starts clear. *)
Definition clear_after (cs : list Chunk) : bool :=
  match cs with
  | [] => true
  | Lit s :: _ => PyStr.truthy s && starts_clear s
  | _ => false
  end.

(** Well-formed chunk lists: literal text has no opening brace, inserted
    values contain no placeholder, and placeholders and values are followed
    by the end or by clear literal text. *)
Fixpoint chunks_ok (cs : list Chunk) : bool :=
  match cs with
  | [] => true
  | Lit s :: cs' => brace_free s && chunks_ok cs'
  | Val s :: cs' => placeholder_free s && clear_after cs' && chunks_ok cs'
  | Hole _ :: cs' => clear_after cs' && chunks_ok cs'
  end.

(** Cutting a template into chunks: at a placeholder, a hole; other
    characters go to the literal in front. *)
Fixpoint parse_from (skip : nat) (s : string) : list Chunk :=
  match s with
  | EmptyString => []
  | String c s' =>
      match skip with
      | S k => parse_from k s'
      | O =>
          match placeholder_at s with
          | Some v => Hole v :: parse_from (PyStr.len (placeholder v) - 1) s'
          | None =>
              match parse_from 0 s' with
              | Lit l :: cs => Lit (String c l) :: cs
              | cs => Lit (String c EmptyString) :: cs
              end
          end
      end
  end.

Definition parse (template : string) : list Chunk := parse_from 0 template.

(** Filling the holes of one variable / of all variables. *)
Definition fill_hole (v : TemplateVar) (x : string) (c : Chunk) : Chunk :=
  match c with
  | Hole v' => if decide (v' = v) then Val x else c
  | _ => c
  end.

Definition fill_all (val : TemplateVar → string) (c : Chunk) : Chunk :=
  match c with
  | Hole v => Val (val v)
  | _ => c
  end.

(** Every character of the string is one placeholders are made of. *)
Fixpoint placeholder_chars (s : string) : bool :=
  match s with
  | EmptyString => true
  | String c s' => placeholder_char c && placeholder_chars s'
  end.

(** The two strings differ at a position both have. *)
Fixpoint mismatch (s p : string) : bool :=
  match s, p with
  | String a s', String b p' => if Ascii.eqb a b then mismatch s' p' else true
  | _, _ => false
  end.

(** The placeholder of every hole of the chunks occurs in the string. *)
Definition holes_occur (s : string) (cs : list Chunk) : bool :=
  forallb
    (λ c, match c with
          | Hole v => PyStr.contains s (placeholder v)
          | _ => true
          end)
    cs.

(** A template of the table cuts into well-formed chunks that render back
    to it, with holes only for placeholders that occur in it. *)
Definition template_ok (template : string) : bool :=
  chunks_ok (parse template)
  && String.eqb (render (parse template)) template
  && holes_occur template (parse template).

(** The paraphrase set of a query type. *)
Definition templates_of (qtype : string) : list string :=
  match dict_get PLANNING_TEMPLATES qtype with
  | Some entry => templates entry
  | None => []
  end.

(** All the templates of the table. *)
Definition all_templates : list string :=
  concat (map (fun e => templates e.2) PLANNING_TEMPLATES).

(** The section of the summary text for one step: the separator, the
    step heading, the separator again, then prompt, answer and thinking. *)
Definition step_section (i : nat) (step : StepRecord) : string :=
  summary_steps i [step].

(** ** Test doubles *)

(** A chat that answers from a script, one result dict per call, and fails
    with an error result when the script is used up. *)
Definition scripted_ask (script : list (gmap string string))
    (prompt task : string) (enable_thinking : bool)
  : gmap string string * list (gmap string string) :=
  match script with
  | [] => ({[ "error" := "inference failed" ]}, [])
  | r :: rest => (r, rest)
  end.

Definition scripted_set_image (script : list (gmap string string)) (image : string)
  : list (gmap string string) := script.

(** A random source that draws 0, 1, 2, ... *)
Definition counter_draw (n : nat) : nat * nat := (n, S n).

Definition empty_fs : FileSystem := {| dirs := ∅; files := ∅ |}.

(** A freshly constructed executor: no image set, no run directory. *)
Definition fresh_world (script : list (gmap string string))
  : World (Chat := list (gmap string string)) (Rng := nat) :=
  {| chat := script; session := PlanningSession.init; run_dir := None;
     rng := 0; fs := empty_fs |}.



(** The run directory of an image set at a fixed time. *)
Definition demo_run_dir : string := path_join RESULTS_BASE_DIR "run_20240101_120000".

(** An executor after [set_image]: the run directory exists and is empty. *)
Definition image_world (script : list (gmap string string))
  : World (Chat := list (gmap string string)) (Rng := nat) :=
  {| chat := script;
     session := PlanningSession.set_run_dir PlanningSession.init (Some demo_run_dir);
     run_dir := Some demo_run_dir;
     rng := 0;
     fs := mkdir demo_run_dir empty_fs |}.

(** A session with a goal, two completed tasks and a longer history. *)
Definition busy_session : PlanningSession.t :=
  PlanningSession.run
    [PlanningSession.AddCompletedTask "find the blocks" "2024-01-01T11:00:00";
     PlanningSession.SetGoal "stack the blocks";
     PlanningSession.AddCompletedTask "locate the red block" "2024-01-01T12:00:00";
     PlanningSession.AddCompletedTask "grasp the red block" "2024-01-01T12:01:00"].

(** One pipeline run for the goal "stack the blocks" with the scripted
    chat and the counting random source. *)
Definition demo_run (now : string)
    (w : World (Chat := list (gmap string string)) (Rng := nat))
  : option (PipelineResults * World) :=
  run_planning_pipeline scripted_ask counter_draw "stack the blocks" false now w.

(** Two pipeline runs, one after the other, on the same executor. *)
Definition demo_run_twice (now1 now2 : string)
    (w : World (Chat := list (gmap string string)) (Rng := nat))
  : option (PipelineResults * World) :=
  match demo_run now1 w with
  | Some (_, w1) => demo_run now2 w1
  | None => None
  end.

(** ** The interactive loop of [main] *)

Module PyText.

(** [c.lower()] for the code points below 256: A-Z and the capital
    letters 192-222 of Latin-1 (not the multiplication sign, 215) move up
    by 32. *)
Definition lower_char (c : ascii) : ascii :=
  let n := nat_of_ascii c in
  if ((65 <=? n) && (n <=? 90))
     || ((192 <=? n) && (n <=? 222) && negb (n =? 215))
  then ascii_of_nat (n + 32)
  else c.

(** [s.lower()]. *)
Fixpoint lower (s : string) : string :=
  match s with
  | EmptyString => EmptyString
  | String c s' => String (lower_char c) (lower s')
  end.

(** The characters up to the first white space. *)
Fixpoint take_word (s : string) : string :=
  match s with
  | EmptyString => EmptyString
  | String c s' => if PyStr.isspace c then EmptyString else String c (take_word s')
  end.

(** What is left from the first white space on. *)
Fixpoint drop_word (s : string) : string :=
  match s with
  | EmptyString => EmptyString
  | String c s' => if PyStr.isspace c then s else drop_word s'
  end.

(** [s.split(maxsplit=1)]: leading white space is skipped; the first word
    ends at white space; what follows the white space after it, if
    anything, is the second part, taken as it is. *)
Definition split_once (s : string) : list string :=
  match PyStr.lstrip s with
  | EmptyString => []
  | String c s' =>
      let word := take_word (String c s') in
      match PyStr.lstrip (drop_word (String c s')) with
      | EmptyString => [word]
      | rest => [word; rest]
      end
  end.

(** [x in xs] for a list of strings. *)
Definition among (x : string) (xs : list string) : bool :=
  existsb (String.eqb x) xs.

End PyText.

(** The [query_map] dict of [main]: short names of the query types. *)
Definition query_map : list (string * string) := [
  ("planning", "planning");
  ("plan", "planning");
  ("next", "planning");
  ("planning_context", "planning_with_context");
  ("context", "planning_with_context");
  ("planning_remain", "planning_remaining");
  ("remain", "planning_remaining");
  ("remaining", "planning_remaining");
  ("future", "future_prediction");
  ("predict", "future_prediction");
  ("success", "success_detection");
  ("done", "success_detection");
  ("affordance_pos", "affordance_positive");
  ("can", "affordance_positive");
  ("feasible", "affordance_positive");
  ("affordance_neg", "affordance_negative");
  ("doing", "affordance_negative");
  ("affordance_gen", "generative_affordance");
  ("available", "generative_affordance");
  ("what_can", "generative_affordance");
  ("past", "past_description");
  ("last", "past_description");
  ("previous", "past_description")
].

(** The [kwargs] [main] builds from the extra argument of a query line. *)
Definition query_kwargs (qtype extra_arg : string) : gmap string string :=
  if PyStr.truthy extra_arg then
    if PyText.among qtype
         ["success_detection"; "affordance_positive"; "affordance_negative"]
    then {[ "task" := extra_arg ]}
    else if PyText.among qtype
              ["planning"; "planning_with_context"; "planning_remaining"]
    then {[ "goal" := extra_arg ]}
    else if String.eqb qtype "future_prediction"
    then {[ "last_task" := extra_arg ]}
    else ∅
  else ∅.

(** How an iteration of the loop of [main] ends: [continue] (or the end of
    the body) and [break]. *)
Inductive LoopControl := Continue | Break.

Section MainLoop.

(** The collaborators, as for the executor, and besides: [chat.reset],
    the truth value of [executor.chat.memory.current_image], and
    [pathlib.Path(p).exists()], which answers or raises [OSError] (on a
    name that is too long for the file system, for one): [None]. *)
Context {Chat Rng : Type}.
Variable chat_set_image : Chat → string → Chat.
Variable chat_ask : Chat → string → string → bool → gmap string string * Chat.
Variable chat_reset : Chat → Chat.
Variable chat_has_image : Chat → bool.
Variable rand_draw : Rng → nat * Rng.
Variable path_exists : string → option bool.

Notation "x <- m ;; k" := (bind m (fun x => k))
  (at level 100, m at next level, right associativity).

(** An exception. *)
Definition throw {A : Type} : M (Chat := Chat) (Rng := Rng) A := fun _ => None.

Definition ask_custom (p : string) (enable_thinking : bool)
  : M (Chat := Chat) (Rng := Rng) StepRecord :=
  result <- ask chat_ask p "general" enable_thinking ;;
  ret {| query_type := "custom";
         prompt := p;
         answer := default "" (result !! "answer");
         thinking := default "" (result !! "thinking");
         success := true |}.

(** [PlanningExecutor.reset]. *)
Definition reset : M (Chat := Chat) (Rng := Rng) unit :=
  fun w => Some (tt, {| chat := chat_reset (chat w);
                        session := PlanningSession.reset (session w);
                        run_dir := run_dir w; rng := rng w; fs := fs w |}).

(** [executor.chat.memory.current_image], as a truth value. *)
Definition has_image : M (Chat := Chat) (Rng := Rng) bool :=
  fun w => Some (chat_has_image (chat w), w).

(** The branch of [main] for a line that starts with "/"; [cmd] and [arg]
    are the lowered first word and the rest of the line. [stamp] and [iso]
    are [datetime.now()] in the format of [set_image] and in ISO format. *)
Definition run_command (cmd arg : string) (enable_thinking : bool)
    (stamp iso : string) : M (Chat := Chat) (Rng := Rng) (LoopControl * bool) :=
  if PyText.among cmd ["/quit"; "/exit"; "/q"] then ret (Break, enable_thinking)
  else if String.eqb cmd "/help" then ret (Continue, enable_thinking)
  else if String.eqb cmd "/types" then ret (Continue, enable_thinking)
  else if String.eqb cmd "/image" then
    if PyStr.truthy arg then
      match path_exists arg with
      | None => throw
      | Some found =>
          if found || PyStr.startswith arg "http"
          then _ <- set_image chat_set_image arg stamp ;;
               ret (Continue, enable_thinking)
          else ret (Continue, enable_thinking)
      end
    else ret (Continue, enable_thinking)
  else if String.eqb cmd "/goal" then
    if PyStr.truthy arg
    then _ <- modify_session (λ s, PlanningSession.set_goal s arg) ;;
         ret (Continue, enable_thinking)
    else ret (Continue, enable_thinking)
  else if String.eqb cmd "/done" then
    if PyStr.truthy arg
    then _ <- modify_session (λ s, PlanningSession.add_completed_task s arg iso) ;;
         ret (Continue, enable_thinking)
    else ret (Continue, enable_thinking)
  else if String.eqb cmd "/current" then
    if PyStr.truthy arg
    then _ <- modify_session (λ s, PlanningSession.set_current_task s arg) ;;
         ret (Continue, enable_thinking)
    else ret (Continue, enable_thinking)
  else if String.eqb cmd "/status" then ret (Continue, enable_thinking)
  else if String.eqb cmd "/pipeline" then
    image <- has_image ;;
    if negb image then ret (Continue, enable_thinking)
    else
      s <- get_session ;;
      match (if PyStr.truthy arg then Some arg else PlanningSession.goal s) with
      | Some goal =>
          if PyStr.truthy goal
          then _ <- run_planning_pipeline chat_ask rand_draw goal enable_thinking iso ;;
               ret (Continue, enable_thinking)
          else ret (Continue, enable_thinking)
      | None => ret (Continue, enable_thinking)
      end
  else if String.eqb cmd "/thinking" then
    if String.eqb (PyText.lower arg) "on" then ret (Continue, true)
    else if String.eqb (PyText.lower arg) "off" then ret (Continue, false)
    else ret (Continue, enable_thinking)
  else if String.eqb cmd "/clear" then
    _ <- reset ;; ret (Continue, enable_thinking)
  else ret (Continue, enable_thinking).

(** The branch of [main] for a line that is no command. *)
Definition run_query (user_input : string) (enable_thinking : bool)
  : M (Chat := Chat) (Rng := Rng) (LoopControl * bool) :=
  image <- has_image ;;
  if negb image then ret (Continue, enable_thinking)
  else
    match PyText.split_once user_input with
    | [] => throw
    | word :: rest =>
        let query_input := PyText.lower word in
        let extra_arg := match rest with a :: _ => a | [] => "" end in
        match dict_get query_map query_input with
        | Some qtype =>
            if PyStr.truthy qtype
            then _ <- ask_planning chat_ask rand_draw qtype enable_thinking
                        (query_kwargs qtype extra_arg) ;;
                 ret (Continue, enable_thinking)
            else _ <- ask_custom user_input enable_thinking ;;
                 ret (Continue, enable_thinking)
        | None =>
            _ <- ask_custom user_input enable_thinking ;;
            ret (Continue, enable_thinking)
        end
    end.

(** The body of the [while True] loop of [main] for a line [input()]
    returned; [enable_thinking] is the variable of [main], returned with
    its new value. *)
Definition main_loop_body (line : string) (enable_thinking : bool)
    (stamp iso : string) : M (Chat := Chat) (Rng := Rng) (LoopControl * bool) :=
  let user_input := PyStr.strip line in
  if negb (PyStr.truthy user_input) then ret (Continue, enable_thinking)
  else if PyStr.startswith user_input "/" then
    match PyText.split_once user_input with
    | [] => throw
    | word :: rest =>
        let cmd := PyText.lower word in
        let arg := match rest with a :: _ => a | [] => "" end in
        run_command cmd arg enable_thinking stamp iso
    end
  else run_query user_input enable_thinking.

(** The line is an [/image] command with an argument on which
    [pathlib.Path(arg).exists()] raises. *)
Definition image_check_raises (line : string) : bool :=
  PyStr.startswith (PyStr.strip line) "/"
  && match PyText.split_once (PyStr.strip line) with
     | [word; arg] =>
         String.eqb (PyText.lower word) "/image"
         && match path_exists arg with None => true | Some _ => false end
     | _ => false
     end.

End MainLoop.

(** Test doubles for the loop: a chat that has an image once one was set. *)
Definition flagged_chat : Type := bool * list (gmap string string).

Definition flagged_set_image (c : flagged_chat) (image : string) : flagged_chat :=
  (true, c.2).

Definition flagged_ask (c : flagged_chat) (p task : string) (enable_thinking : bool)
  : gmap string string * flagged_chat :=
  let '(result, script) := scripted_ask c.2 p task enable_thinking in
  (result, (c.1, script)).

Definition flagged_reset (c : flagged_chat) : flagged_chat := (false, c.2).

Definition flagged_has_image (c : flagged_chat) : bool := c.1.

(** No path exists. *)
Definition no_path (p : string) : option bool := Some false.

(** No path exists, and a path of more than 255 characters is refused. *)
Definition short_path (p : string) : option bool :=
  if 255 <? PyStr.len p then None else Some false.

(** A freshly constructed executor for the loop. *)
Definition loop_world (script : list (gmap string string))
  : World (Chat := flagged_chat) (Rng := nat) :=
  {| chat := (false, script); session := PlanningSession.init; run_dir := None;
     rng := 0; fs := empty_fs |}.

(** The loop body on the test doubles, at a fixed time. *)
Definition demo_loop_body (line : string) (enable_thinking : bool)
    (w : World (Chat := flagged_chat) (Rng := nat))
  : option (LoopControl * bool * World) :=
  main_loop_body flagged_set_image flagged_ask flagged_reset flagged_has_image
    counter_draw no_path line enable_thinking "20240101_120000"
    "2024-01-01T12:00:00" w.

(** Two [/image] lines with a URL, the second with a name of 300
    characters in it. *)
Definition image_line : string := "/image http://example.org/cup.jpg".

Definition long_image_line : string :=
  "/image http://example.org/" +:+ PyStr.repeat "a" 300 +:+ ".jpg".

(** The loop body on the test doubles where long paths are refused. *)
Definition checked_loop_body (line : string) (enable_thinking : bool)
    (w : World (Chat := flagged_chat) (Rng := nat))
  : option (LoopControl * bool * World) :=
  main_loop_body flagged_set_image flagged_ask flagged_reset flagged_has_image
    counter_draw short_path line enable_thinking "20240101_120000"
    "2024-01-01T12:00:00" w.

(** The loop body on a sequence of lines, as long as it continues. *)
Fixpoint demo_loop (lines : list string) (enable_thinking : bool)
    (w : World (Chat := flagged_chat) (Rng := nat))
  : option (LoopControl * bool * World) :=
  match lines with
  | [] => Some (Continue, enable_thinking, w)
  | line :: rest =>
      match demo_loop_body line enable_thinking w with
      | Some (Continue, thinking', w') => demo_loop rest thinking' w'
      | r => r
      end
  end.

(** The query types whose templates hold the placeholder of one variable
    only, with that variable. *)
Definition single_variable_types : list (string * TemplateVar) :=
  [("planning", VGoal); ("future_prediction", VLastTask);
   ("success_detection", VTask); ("affordance_positive", VTask);
   ("affordance_negative", VTask)].

(** ** The pipeline in direct style *)

Section PipelineOutcome.

Context {Chat Rng : Type}.
Variable chat_ask : Chat → string → string → bool → gmap string string * Chat.
Variable rand_draw : Rng → nat * Rng.

(** The template [random.choice] selects for a query type in a random
    state. *)
Definition chosen_template (qtype : string) (g : Rng) : string :=
  default "" (templates_of qtype
                !! ((rand_draw g).1 mod length (templates_of qtype))).

(** The prompt of a stage: the selected template, filled. *)
Definition stage_prompt (qtype : string) (kwargs : gmap string string)
    (w : World (Chat := Chat) (Rng := Rng)) : string :=
  fill_template (chosen_template qtype (rng w)) (replacements (session w) kwargs).

(** The step record of a stage. *)
Definition stage_record (qtype : string) (kwargs : gmap string string)
    (enable_thinking : bool) (w : World (Chat := Chat) (Rng := Rng)) : StepRecord :=
  step_record qtype (stage_prompt qtype kwargs w)
    (chat_ask (chat w) (stage_prompt qtype kwargs w) "general" enable_thinking).1.

(** The world after a stage. *)
Definition stage_world (qtype : string) (kwargs : gmap string string)
    (enable_thinking : bool) (w : World (Chat := Chat) (Rng := Rng)) : World :=
  after_ask chat_ask rand_draw w (stage_prompt qtype kwargs w) enable_thinking.

(** The results and the world a pipeline run ends with, stage by stage. *)
Definition pipeline_outcome (goal : string) (enable_thinking : bool) (now : string)
    (w : World (Chat := Chat) (Rng := Rng)) : PipelineResults * World :=
  let w0 := {| chat := chat w; session := PlanningSession.set_goal (session w) goal;
               run_dir := run_dir w; rng := rng w; fs := fs w |} in
  let s1 := stage_record "generative_affordance" ∅ enable_thinking w0 in
  let w1 := stage_world "generative_affordance" ∅ enable_thinking w0 in
  let s2 := stage_record "planning" {[ "goal" := goal ]} enable_thinking w1 in
  let w2 := stage_world "planning" {[ "goal" := goal ]} enable_thinking w1 in
  let w2' := {| chat := chat w2;
                session :=
                  match _extract_task_from_answer (answer s2) with
                  | Some tk => PlanningSession.set_current_task (session w2) tk
                  | None => session w2
                  end;
                run_dir := run_dir w2; rng := rng w2; fs := fs w2 |} in
  let k3 : gmap string string := {[ "task" := stage3_task (answer s2) ]} in
  let s3 := stage_record "affordance_positive" k3 enable_thinking w2' in
  let w3 := stage_world "affordance_positive" k3 enable_thinking w2' in
  let k4 : gmap string string := <[ "num_steps" := "5" ]> {[ "goal" := goal ]} in
  let s4 := stage_record "planning_remaining" k4 enable_thinking w3 in
  let w4 := stage_world "planning_remaining" k4 enable_thinking w3 in
  let results := {| results_goal := goal; results_steps := [s1; s2; s3; s4];
                    results_success := true; results_timestamp := now |} in
  (results,
   {| chat := chat w4; session := session w4; run_dir := run_dir w4; rng := rng w4;
      fs := saved (run_dir w4) results (fs w4) |}).

End PipelineOutcome.

(** An executor in the middle of a session: image set, goal and progress
    recorded, an older results file in the run directory. *)
Definition busy_world (script : list (gmap string string))
  : World (Chat := list (gmap string string)) (Rng := nat) :=
  {| chat := script;
     session := PlanningSession.set_run_dir busy_session (Some demo_run_dir);
     run_dir := Some demo_run_dir;
     rng := 0;
     fs := write_file (path_join demo_run_dir "notes.txt") (TextFile "keep")
             (mkdir demo_run_dir empty_fs) |}.

(** Two worlds agree: the same chat and random state, and sessions with
    the same goal, completed tasks and current task. *)
Definition agree {Chat Rng : Type} (w1 w2 : World (Chat := Chat) (Rng := Rng)) : Prop :=
  chat w1 = chat w2 ∧ rng w1 = rng w2
  ∧ PlanningSession.goal (session w1) = PlanningSession.goal (session w2)
  ∧ PlanningSession.completed_tasks (session w1)
    = PlanningSession.completed_tasks (session w2)
  ∧ PlanningSession.current_task (session w1)
    = PlanningSession.current_task (session w2).

(** ** Lines of input *)

(** The character does not occur in the string. *)
Fixpoint without_char (c : ascii) (s : string) : bool :=
  match s with
  | EmptyString => true
  | String d s' => negb (Ascii.eqb d c) && without_char c s'
  end.

(** Every character of the string is white space. *)
Fixpoint all_space (s : string) : bool :=
  match s with
  | EmptyString => true
  | String c s' => PyStr.isspace c && all_space s'
  end.

(** No character of the string is white space. *)
Fixpoint no_space (s : string) : bool :=
  match s with
  | EmptyString => true
  | String c s' => negb (PyStr.isspace c) && no_space s'
  end.

(** A line of input: a first word and an argument, with white space
    before, between and after. *)
Definition input_line (pre word sep arg post : string) : string :=
  pre +:+ word +:+ sep +:+ arg +:+ post.

(** The world with another session. *)
Definition with_session {Chat Rng : Type} (w : World (Chat := Chat) (Rng := Rng))
    (s : PlanningSession.t) : World :=
  {| chat := chat w; session := s; run_dir := run_dir w; rng := rng w; fs := fs w |}.

(** The session operation of a session command. *)
Definition session_command (cmd arg iso : string) (s : PlanningSession.t)
  : PlanningSession.t :=
  if String.eqb cmd "/goal" then PlanningSession.set_goal s arg
  else if String.eqb cmd "/done" then PlanningSession.add_completed_task s arg iso
  else PlanningSession.set_current_task s arg.

(** An executor for the loop with an image set. *)
Definition image_loop_world (script : list (gmap string string))
  : World (Chat := flagged_chat) (Rng := nat) :=
  {| chat := (true, script);
     session := PlanningSession.set_run_dir PlanningSession.init (Some demo_run_dir);
     run_dir := Some demo_run_dir;
     rng := 0;
     fs := mkdir demo_run_dir empty_fs |}.

(** * Properties *)

(** ** Strings *)

Section StringFacts.

Implicit Types (s t p : string) (c : ascii).

Lemma str_app_cons c s t : String c s +:+ t = String c (s +:+ t).
Proof. reflexivity. Qed.

Lemma str_app_nil_l t : "" +:+ t = t.
Proof. reflexivity. Qed.

Lemma str_app_nil_r s : s +:+ "" = s.
Proof. induction s as [|c s IH]; [done|]. by rewrite str_app_cons, IH. Qed.

Lemma str_app_assoc s t p : (s +:+ t) +:+ p = s +:+ (t +:+ p).
Proof.
  induction s as [|c s IH]; [done|]. by rewrite !str_app_cons, IH.
Qed.

Lemma len_app s t : PyStr.len (s +:+ t) = PyStr.len s + PyStr.len t.
Proof.
  induction s as [|c s IH]; [done|].
  rewrite str_app_cons. unfold PyStr.len in *. simpl. by rewrite IH.
Qed.

Lemma len_take n s : PyStr.len (PyStr.take n s) ≤ n.
Proof.
  revert s. induction n as [|n IH]; intros [|c s]; simpl; try lia.
  specialize (IH s). unfold PyStr.len in *. simpl. lia.
Qed.

Lemma truthy_len s : PyStr.truthy s = true ↔ 0 < PyStr.len s.
Proof. destruct s; unfold PyStr.len; simpl; split; (done || lia). Qed.

Lemma take_truthy n s :
  PyStr.truthy s = true → PyStr.truthy (PyStr.take (S n) s) = true.
Proof. by destruct s. Qed.

Lemma startswith_nil s : PyStr.startswith s "" = true.
Proof. by destruct s. Qed.

Lemma startswith_app p s : PyStr.startswith (p +:+ s) p = true.
Proof.
  induction p as [|c p IH]; [apply startswith_nil|].
  rewrite str_app_cons. simpl. by rewrite Ascii.eqb_refl, IH.
Qed.

Lemma startswith_split s p :
  PyStr.startswith s p = true → s = p +:+ PyStr.drop (PyStr.len p) s.
Proof.
  revert s. induction p as [|c p IH]; intros s H; [done|].
  destruct s as [|d s]; [done|]. simpl in H.
  apply andb_true_iff in H as [Hc Hs]. apply Ascii.eqb_eq in Hc as ->.
  rewrite str_app_cons. unfold PyStr.len. simpl. f_equal. by apply IH.
Qed.

Lemma last_char_app s t :
  last_char (s +:+ t) = match t with EmptyString => last_char s | _ => last_char t end.
Proof.
  induction s as [|c s IH].
  - rewrite str_app_nil_l. by destruct t.
  - rewrite str_app_cons. simpl. rewrite IH.
    destruct t as [|d t].
    + rewrite str_app_nil_r. by destruct s.
    + destruct s; [by rewrite str_app_nil_l | by rewrite str_app_cons].
Qed.

Lemma last_char_none s : last_char s = None → s = "".
Proof.
  induction s as [|c s IH]; [done|]. simpl.
  destruct s; [done|]. intros H. by specialize (IH H).
Qed.

(** What [rstrip] keeps does not end in white space. *)
Lemma rstrip_last s c :
  last_char (PyStr.rstrip s) = Some c → PyStr.isspace c = false.
Proof.
  induction s as [|d s IH]; [done|]. simpl.
  destruct (PyStr.rstrip s) as [|e r] eqn:E.
  - destruct (PyStr.isspace d) eqn:Hd; simpl; [done|]. by intros [= <-].
  - exact IH.
Qed.

Lemma strip_last s c :
  last_char (PyStr.strip s) = Some c → PyStr.isspace c = false.
Proof. apply rstrip_last. Qed.

End StringFacts.

(** ** Task extraction *)

Section Extraction.

(** Removing a prefix that ends in white space from a line that does not
    leaves the end of the line in place. *)
Lemma remove_prefix_last line prefix c sp :
  last_char line = Some c → PyStr.isspace c = false →
  last_char prefix = Some sp → PyStr.isspace sp = true →
  last_char (remove_prefix line prefix) = Some c.
Proof.
  intros Hl Hc Hp Hsp. unfold remove_prefix.
  destruct (PyStr.startswith line prefix) eqn:E; [|done].
  apply startswith_split in E.
  rewrite E, last_char_app in Hl.
  destruct (PyStr.drop (PyStr.len prefix) line); [|done].
  congruence.
Qed.

Lemma remove_prefixes_last line c :
  last_char line = Some c → PyStr.isspace c = false →
  last_char (fold_left remove_prefix task_prefixes line) = Some c.
Proof.
  intros Hl Hc. simpl.
  repeat (eapply remove_prefix_last; [| exact Hc | reflexivity | reflexivity]).
  exact Hl.
Qed.

Lemma last_char_truthy s c : last_char s = Some c → PyStr.truthy s = true.
Proof. by destruct s. Qed.

(** The loop returns the first line that is longer than 10 characters
    once white space is stripped, or [None] when there is none. *)
Lemma extract_task_loop_spec lines :
  match extract_task_loop lines with
  | None => Forall (fun l => PyStr.len (PyStr.strip l) ≤ 10) lines
  | Some tk =>
      ∃ before line after,
        lines = before ++ line :: after
        ∧ Forall (fun l => PyStr.len (PyStr.strip l) ≤ 10) before
        ∧ 10 < PyStr.len (PyStr.strip line)
        ∧ tk = PyStr.take 100 (fold_left remove_prefix task_prefixes (PyStr.strip line))
  end.
Proof.
  induction lines as [|l lines IH]; [by constructor|].
  cbn [extract_task_loop].
  destruct (PyStr.truthy (PyStr.strip l) && (10 <? PyStr.len (PyStr.strip l))) eqn:E.
  - apply andb_true_iff in E as [_ E]. apply Nat.ltb_lt in E.
    exists [], l, lines. by repeat split.
  - assert (PyStr.len (PyStr.strip l) ≤ 10) as Hl.
    { apply andb_false_iff in E as [E|E].
      - destruct (PyStr.strip l); [unfold PyStr.len; simpl; lia | done].
      - apply Nat.ltb_ge in E. lia. }
    destruct (extract_task_loop lines) as [tk|].
    + destruct IH as (before & line & after & -> & Hb & Hlen & ->).
      exists (l :: before), line, after. repeat split; [by constructor | done].
    + by constructor.
Qed.

(** An extracted task is never the empty string. *)
Lemma extract_task_truthy answer tk :
  _extract_task_from_answer answer = Some tk → PyStr.truthy tk = true.
Proof.
  unfold _extract_task_from_answer. intros H.
  pose proof (extract_task_loop_spec (PyStr.split newline answer)) as S.
  rewrite H in S. destruct S as (before & line & after & _ & _ & Hlen & ->).
  destruct (last_char (PyStr.strip line)) as [c|] eqn:E.
  - apply take_truthy. eapply last_char_truthy.
    apply remove_prefixes_last; [exact E | by eapply strip_last].
  - apply last_char_none in E. rewrite E in Hlen.
    unfold PyStr.len in Hlen. simpl in Hlen. lia.
Qed.

Lemma stage3_task_or_else answer :
  PyStr.or_else (_extract_task_from_answer answer) "the first step"
  = stage3_task answer.
Proof.
  unfold stage3_task, PyStr.or_else.
  destruct (_extract_task_from_answer answer) as [tk|] eqn:E; [|done].
  by rewrite (extract_task_truthy _ _ E).
Qed.

End Extraction.

(** ** Template filling *)

Section Templates.

Implicit Types (s t rest key new : string) (c : ascii) (v : TemplateVar).

Lemma placeholder_cons v : placeholder v = String open_brace (var_name v +:+ "}").
Proof. reflexivity. Qed.

Lemma startswith_brace_free_head c s k :
  Ascii.eqb c open_brace = false → PyStr.startswith (String c s) (String open_brace k) = false.
Proof. intros H. cbn [PyStr.startswith]. by rewrite Ascii.eqb_sym, H. Qed.

Lemma startswith_mismatch s key rest :
  mismatch s key = true → PyStr.startswith (s +:+ rest) key = false.
Proof.
  revert key. induction s as [|c s IH]; intros [|d key] H; try done.
  rewrite str_app_cons. simpl in *. rewrite (Ascii.eqb_sym d c).
  destruct (Ascii.eqb c d); [by apply IH | done].
Qed.

(** A placeholder cannot start in [s] and end in text that starts clear. *)
Lemma startswith_app_clear key s rest :
  placeholder_chars key = true → starts_clear rest = true →
  PyStr.startswith (s +:+ rest) key = true → PyStr.startswith s key = true.
Proof.
  revert s. induction key as [|d key IH]; intros s Hk Hr H.
  { apply startswith_nil. }
  simpl in Hk. apply andb_true_iff in Hk as [Hd Hk].
  destruct s as [|c s].
  - rewrite str_app_nil_l in H. destruct rest as [|r rest]; [done|].
    simpl in H, Hr. apply andb_true_iff in H as [H _].
    apply Ascii.eqb_eq in H as <-. by rewrite Hd in Hr.
  - rewrite str_app_cons in H. simpl in *.
    apply andb_true_iff in H as [-> H]. simpl. by apply IH.
Qed.

Lemma contains_cons c s key :
  PyStr.contains (String c s) key
  = PyStr.startswith (String c s) key || PyStr.contains s key.
Proof. reflexivity. Qed.

(** *** Walking [str.replace] over the chunks *)

Lemma replace_from_skip old new s rest :
  PyStr.replace_from old new (PyStr.len s) (s +:+ rest)
  = PyStr.replace_from old new 0 rest.
Proof.
  induction s as [|c s IH]; [by destruct rest|].
  rewrite str_app_cons. exact IH.
Qed.

Lemma replace_from_match c k new rest :
  PyStr.replace_from (String c k) new 0 (String c k +:+ rest)
  = new +:+ PyStr.replace_from (String c k) new 0 rest.
Proof.
  rewrite str_app_cons. cbn [PyStr.replace_from].
  rewrite <- str_app_cons, startswith_app.
  replace (PyStr.len (String c k) - 1) with (PyStr.len k)
    by (unfold PyStr.len; simpl; lia).
  by rewrite replace_from_skip.
Qed.

Lemma replace_from_brace_free k new s rest :
  brace_free s = true →
  PyStr.replace_from (String open_brace k) new 0 (s +:+ rest)
  = s +:+ PyStr.replace_from (String open_brace k) new 0 rest.
Proof.
  induction s as [|c s IH]; intros H; [done|].
  simpl in H. apply andb_true_iff in H as [Hc Hs]. apply negb_true_iff in Hc.
  rewrite !str_app_cons. cbn [PyStr.replace_from].
  rewrite <- str_app_cons, (str_app_cons c s rest).
  rewrite (startswith_brace_free_head _ _ _ Hc). by rewrite IH.
Qed.

Lemma replace_from_clean key new s rest :
  placeholder_chars key = true → PyStr.contains s key = false →
  starts_clear rest = true →
  PyStr.replace_from key new 0 (s +:+ rest)
  = s +:+ PyStr.replace_from key new 0 rest.
Proof.
  intros Hk Hs Hr. induction s as [|c s IH]; [done|].
  rewrite contains_cons in Hs. apply orb_false_iff in Hs as [Hhead Hs].
  rewrite !str_app_cons. cbn [PyStr.replace_from].
  rewrite <- str_app_cons.
  destruct (PyStr.startswith (String c s +:+ rest) key) eqn:E.
  - apply startswith_app_clear in E; [congruence | done | done].
  - by rewrite IH.
Qed.

Lemma placeholder_chars_ok v : placeholder_chars (placeholder v) = true.
Proof. by destruct v. Qed.

Lemma placeholder_mismatch v v' :
  v' ≠ v → mismatch (placeholder v') (placeholder v) = true.
Proof. by destruct v, v'. Qed.

Lemma placeholder_tail_brace_free v : brace_free (var_name v +:+ "}") = true.
Proof. by destruct v. Qed.

Lemma replace_from_other v v' new rest :
  v' ≠ v →
  PyStr.replace_from (placeholder v) new 0 (placeholder v' +:+ rest)
  = placeholder v' +:+ PyStr.replace_from (placeholder v) new 0 rest.
Proof.
  intros Hne.
  pose proof (startswith_mismatch _ _ rest (placeholder_mismatch v v' Hne)) as Hm.
  rewrite (placeholder_cons v') in *. rewrite str_app_cons in *.
  cbn [PyStr.replace_from]. rewrite Hm. f_equal.
  rewrite (placeholder_cons v).
  by rewrite replace_from_brace_free by apply placeholder_tail_brace_free.
Qed.

Lemma clear_after_render cs : clear_after cs = true → starts_clear (render cs) = true.
Proof.
  destruct cs as [|[l| |] cs]; try done. simpl.
  intros [Hl Hc]%andb_true_iff. by destruct l.
Qed.

Lemma placeholder_free_contains s v :
  placeholder_free s = true → PyStr.contains s (placeholder v) = false.
Proof.
  unfold placeholder_free. rewrite forallb_forall. intros H.
  apply negb_true_iff, H. destruct v; simpl; tauto.
Qed.

Lemma clear_after_fill_hole v x cs :
  clear_after (map (fill_hole v x) cs) = clear_after cs.
Proof.
  destruct cs as [|[l|l|v'] cs]; try done. simpl. by destruct (decide (v' = v)).
Qed.

Lemma elem_of_fill_hole v x v' cs :
  Hole v' ∈ map (fill_hole v x) cs → Hole v' ∈ cs.
Proof.
  induction cs as [|ch cs IH]; [done|]. cbn [map].
  intros [E|Hin]%elem_of_cons; [|by right; apply IH].
  destruct ch as [l|l|v'']; cbn [fill_hole] in E; try done.
  destruct (decide (v'' = v)); [done|]. rewrite E. by left.
Qed.

Lemma chunks_ok_fill_hole v x cs :
  (Hole v ∈ cs → placeholder_free x = true) → chunks_ok cs = true →
  chunks_ok (map (fill_hole v x) cs) = true.
Proof.
  induction cs as [|[l|l|v'] cs IH]; simpl; [done|..]; intros Hx.
  - intros [-> H]%andb_true_iff. rewrite IH; [done| |done].
    intros Hin. apply Hx. by right.
  - intros [[-> Hc]%andb_true_iff H]%andb_true_iff.
    rewrite clear_after_fill_hole, Hc, IH; [done| |done].
    intros Hin. apply Hx. by right.
  - intros [Hc H]%andb_true_iff.
    assert (chunks_ok (map (fill_hole v x) cs) = true) as IH'.
    { apply IH; [|done]. intros Hin. apply Hx. by right. }
    destruct (decide (v' = v)) as [->|Hne]; simpl;
      rewrite clear_after_fill_hole, Hc, IH'; [|done].
    rewrite Hx; [done | by left].
Qed.

(** One [replace] of the loop fills exactly the holes of its variable. *)
Lemma replace_render v x cs :
  chunks_ok cs = true →
  PyStr.replace (render cs) (placeholder v) x = render (map (fill_hole v x) cs).
Proof.
  change (PyStr.replace (render cs) (placeholder v) x)
    with (PyStr.replace_from (placeholder v) x 0 (render cs)).
  induction cs as [|[l|l|v'] cs IH];
    cbn [render render_chunk map fill_hole chunks_ok]; [done|..].
  - intros [Hl H]%andb_true_iff. rewrite placeholder_cons.
    rewrite replace_from_brace_free by done.
    rewrite <- placeholder_cons. by rewrite IH.
  - intros [[Hl Hc]%andb_true_iff H]%andb_true_iff.
    rewrite replace_from_clean;
      [by rewrite IH | apply placeholder_chars_ok
      | by apply placeholder_free_contains | by apply clear_after_render].
  - intros [Hc H]%andb_true_iff.
    destruct (decide (v' = v)) as [->|Hne]; cbn [render_chunk].
    + rewrite placeholder_cons at 1 2. rewrite replace_from_match.
      rewrite <- placeholder_cons. by rewrite IH.
    + rewrite replace_from_other by done. by rewrite IH.
Qed.

(** *** Walking the one-pass substitution over the chunks *)

Lemma placeholder_at_none s :
  (∀ v, PyStr.startswith s (placeholder v) = false) → placeholder_at s = None.
Proof.
  intros H. unfold placeholder_at, template_vars. cbn [find]. by rewrite !H.
Qed.

Lemma placeholder_at_placeholder v rest :
  placeholder_at (placeholder v +:+ rest) = Some v.
Proof.
  unfold placeholder_at, template_vars. cbn [find].
  destruct v;
    rewrite ?(startswith_mismatch _ (placeholder VGoal)) by reflexivity;
    rewrite ?(startswith_mismatch _ (placeholder VCompletedSteps)) by reflexivity;
    rewrite ?(startswith_mismatch _ (placeholder VLastTask)) by reflexivity;
    rewrite ?(startswith_mismatch _ (placeholder VTask)) by reflexivity;
    by rewrite startswith_app.
Qed.

Lemma substitute_from_skip val s rest :
  substitute_from val (PyStr.len s) (s +:+ rest) = substitute_from val 0 rest.
Proof.
  induction s as [|c s IH]; [by destruct rest|].
  rewrite str_app_cons. exact IH.
Qed.

Lemma substitute_from_match val v rest :
  substitute_from val 0 (placeholder v +:+ rest)
  = val v +:+ substitute_from val 0 rest.
Proof.
  pose proof (placeholder_at_placeholder v rest) as Hat.
  rewrite (placeholder_cons v) in Hat |- * at 1.
  rewrite str_app_cons in *. cbn [substitute_from]. rewrite Hat.
  replace (PyStr.len (placeholder v) - 1) with (PyStr.len (var_name v +:+ "}"))
    by (rewrite placeholder_cons; unfold PyStr.len; simpl; lia).
  by rewrite substitute_from_skip.
Qed.

Lemma substitute_from_brace_free val s rest :
  brace_free s = true →
  substitute_from val 0 (s +:+ rest) = s +:+ substitute_from val 0 rest.
Proof.
  induction s as [|c s IH]; intros H; [done|].
  simpl in H. apply andb_true_iff in H as [Hc Hs]. apply negb_true_iff in Hc.
  rewrite !str_app_cons. cbn [substitute_from].
  rewrite placeholder_at_none, IH; [done..|].
  intros v. rewrite placeholder_cons. by apply startswith_brace_free_head.
Qed.

Lemma substitute_from_clean val s rest :
  placeholder_free s = true → starts_clear rest = true →
  substitute_from val 0 (s +:+ rest) = s +:+ substitute_from val 0 rest.
Proof.
  intros Hs Hr.
  assert (∀ v, PyStr.contains s (placeholder v) = false) as Hc
    by (intros v; by apply placeholder_free_contains).
  clear Hs. induction s as [|c s IH]; [done|].
  rewrite !str_app_cons. cbn [substitute_from]. rewrite <- str_app_cons.
  rewrite placeholder_at_none.
  - rewrite IH; [done|]. intros v. specialize (Hc v).
    rewrite contains_cons in Hc. by apply orb_false_iff in Hc as [_ Hc].
  - intros v. specialize (Hc v). rewrite contains_cons in Hc.
    apply orb_false_iff in Hc as [Hhead _].
    destruct (PyStr.startswith (String c s +:+ rest) (placeholder v)) eqn:E; [|done].
    apply startswith_app_clear in E;
      [congruence | apply placeholder_chars_ok | done].
Qed.

(** On well-formed chunks the one-pass substitution fills every hole. *)
Lemma substitute_render val cs :
  chunks_ok cs = true →
  substitute val (render cs) = render (map (fill_all val) cs).
Proof.
  unfold substitute.
  induction cs as [|[l|l|v'] cs IH];
    cbn [render render_chunk map fill_all chunks_ok]; [done|..].
  - intros [Hl H]%andb_true_iff.
    by rewrite substitute_from_brace_free, IH.
  - intros [[Hl Hc]%andb_true_iff H]%andb_true_iff.
    rewrite substitute_from_clean, IH; [done..|]. by apply clear_after_render.
  - intros [Hc H]%andb_true_iff. by rewrite substitute_from_match, IH.
Qed.

(** *** No placeholder is left *)

Lemma contains_brace_free k s rest :
  brace_free s = true →
  PyStr.contains (s +:+ rest) (String open_brace k)
  = PyStr.contains rest (String open_brace k).
Proof.
  induction s as [|c s IH]; intros H; [done|].
  simpl in H. apply andb_true_iff in H as [Hc Hs]. apply negb_true_iff in Hc.
  rewrite str_app_cons, contains_cons.
  by rewrite (startswith_brace_free_head _ _ _ Hc), IH.
Qed.

Lemma contains_clean key s rest :
  placeholder_chars key = true → PyStr.contains s key = false →
  starts_clear rest = true →
  PyStr.contains (s +:+ rest) key = PyStr.contains rest key.
Proof.
  intros Hk Hs Hr. induction s as [|c s IH]; [done|].
  rewrite contains_cons in Hs. apply orb_false_iff in Hs as [Hhead Hs].
  rewrite str_app_cons, contains_cons, <- str_app_cons.
  destruct (PyStr.startswith (String c s +:+ rest) key) eqn:E.
  - apply startswith_app_clear in E; [congruence | done | done].
  - by rewrite IH.
Qed.

Lemma clear_after_fill_all val cs :
  clear_after (map (fill_all val) cs) = clear_after cs.
Proof. by destruct cs as [|[l|l|v'] cs]. Qed.

Lemma filled_contains val cs v :
  (∀ v', Hole v' ∈ cs → placeholder_free (val v') = true) → chunks_ok cs = true →
  PyStr.contains (render (map (fill_all val) cs)) (placeholder v) = false.
Proof.
  induction cs as [|[l|l|v'] cs IH];
    cbn [render render_chunk map fill_all chunks_ok]; [by destruct v|..];
    intros Hval.
  - intros [Hl H]%andb_true_iff. rewrite placeholder_cons.
    rewrite contains_brace_free by done. rewrite <- placeholder_cons.
    apply IH; [|done]. intros v'' Hin. apply Hval. by right.
  - intros [[Hl Hc]%andb_true_iff H]%andb_true_iff.
    rewrite contains_clean;
      [| apply placeholder_chars_ok
       | by apply placeholder_free_contains
       | apply clear_after_render; by rewrite clear_after_fill_all].
    apply IH; [|done]. intros v'' Hin. apply Hval. by right.
  - intros [Hc H]%andb_true_iff.
    rewrite contains_clean;
      [| apply placeholder_chars_ok
       | apply placeholder_free_contains, Hval; by left
       | apply clear_after_render; by rewrite clear_after_fill_all].
    apply IH; [|done]. intros v'' Hin. apply Hval. by right.
Qed.

Lemma filled_placeholder_free val cs :
  (∀ v, Hole v ∈ cs → placeholder_free (val v) = true) → chunks_ok cs = true →
  placeholder_free (render (map (fill_all val) cs)) = true.
Proof.
  intros Hval Hcs. unfold placeholder_free. apply forallb_forall.
  intros v _. apply negb_true_iff. by apply filled_contains.
Qed.

(** *** The loop of [generate_prompt] *)

Lemma fill_holes_all val (ch : Chunk) :
  fill_hole VNumSteps (val VNumSteps)
    (fill_hole VTask (val VTask)
       (fill_hole VLastTask (val VLastTask)
          (fill_hole VCompletedSteps (val VCompletedSteps)
             (fill_hole VGoal (val VGoal) ch))))
  = fill_all val ch.
Proof. by destruct ch as [l|l|[]]. Qed.

(** Filling the variables one after the other, as the loop does, fills
    every hole with the value of its variable. *)
Lemma fill_template_render val cs :
  (∀ v, Hole v ∈ cs → placeholder_free (val v) = true) → chunks_ok cs = true →
  fill_template (render cs) (map (λ v, (var_name v, val v)) template_vars)
  = render (map (fill_all val) cs).
Proof.
  intros Hval Hcs. unfold fill_template, template_vars.
  cbn [map fold_left fst snd].
  change ("{" +:+ var_name VGoal +:+ "}") with (placeholder VGoal).
  change ("{" +:+ var_name VCompletedSteps +:+ "}") with (placeholder VCompletedSteps).
  change ("{" +:+ var_name VLastTask +:+ "}") with (placeholder VLastTask).
  change ("{" +:+ var_name VTask +:+ "}") with (placeholder VTask).
  change ("{" +:+ var_name VNumSteps +:+ "}") with (placeholder VNumSteps).
  rewrite !replace_render;
    repeat (apply chunks_ok_fill_hole;
            [intros Hin; apply Hval; repeat (apply elem_of_fill_hole in Hin); exact Hin|]);
    try done.
  rewrite !map_map. f_equal. apply map_ext. intros ch. apply fill_holes_all.
Qed.

Lemma numbered_from_zip i tasks :
  PlanningSession.numbered_from i tasks
  = zip_with (λ j tk, PyStr.of_nat j +:+ "-" +:+ tk) (seq (i + 1) (length tasks)) tasks.
Proof.
  revert i. induction tasks as [|tk tasks IH]; intros i; [done|].
  cbn [PlanningSession.numbered_from length seq zip_with]. f_equal.
  rewrite IH. by replace (S i + 1) with (S (i + 1)) by lia.
Qed.

(** The [replacements] dict holds, for each variable, the value supplied,
    else the value from the session, else the default. *)
Lemma replacements_resolve sess kwargs :
  replacements sess kwargs
  = map (λ v, (var_name v, resolve sess kwargs v)) template_vars.
Proof.
  unfold replacements, template_vars, resolve. cbn [map var_name].
  repeat f_equal.
  - destruct (kwargs !! "goal"); [done|]. simpl.
    destruct (PlanningSession.goal sess) as [g|]; [|done]. simpl.
    by destruct (PyStr.truthy g).
  - destruct (kwargs !! "completed_steps"); [done|]. simpl.
    unfold PlanningSession.get_completed_steps_str.
    destruct (PlanningSession.completed_tasks sess) as [|tk tasks]; [done|].
    simpl default. by rewrite numbered_from_zip.
  - destruct (kwargs !! "task"); [done|]. simpl.
    destruct (PlanningSession.current_task sess) as [g|]; [|done]. simpl.
    by destruct (PyStr.truthy g).
Qed.

Lemma all_templates_ok : forallb template_ok all_templates = true.
Proof. vm_compute. reflexivity. Qed.

Lemma template_ok_parse template :
  template ∈ all_templates →
  chunks_ok (parse template) = true
  ∧ render (parse template) = template
  ∧ ∀ v, Hole v ∈ parse template → PyStr.contains template (placeholder v) = true.
Proof.
  intros Hin. pose proof all_templates_ok as H.
  rewrite forallb_forall in H. apply list_elem_of_In, H in Hin.
  unfold template_ok in Hin.
  apply andb_true_iff in Hin as [[? E]%andb_true_iff Hh].
  split; [done|]. split; [by apply String.eqb_eq in E|].
  intros v Hv. unfold holes_occur in Hh. rewrite forallb_forall in Hh.
  by apply (Hh (Hole v)), list_elem_of_In.
Qed.

(** For a template of the table, if the values of the variables whose
    placeholders occur in it contain no placeholder, the loop of
    [generate_prompt] is the substitution of all placeholders at once, and
    leaves no placeholder. *)
Lemma fill_template_substitute sess kwargs template :
  template ∈ all_templates →
  (∀ v, PyStr.contains template (placeholder v) = true →
        placeholder_free (resolve sess kwargs v) = true) →
  fill_template template (replacements sess kwargs)
  = substitute (resolve sess kwargs) template
  ∧ placeholder_free (fill_template template (replacements sess kwargs)) = true.
Proof.
  intros Hin Hval. destruct (template_ok_parse _ Hin) as (Hok & Hrender & Hholes).
  assert (∀ v, Hole v ∈ parse template →
               placeholder_free (resolve sess kwargs v) = true) as Hval'
    by (intros v Hv; by apply Hval, Hholes).
  rewrite replacements_resolve. rewrite <- Hrender at 1 2 3.
  rewrite fill_template_render by done.
  rewrite substitute_render by done.
  split; [done|]. by apply filled_placeholder_free.
Qed.

End Templates.

(** ** The executor *)

Section ExecutorFacts.

Context {Chat Rng : Type}.
Variable chat_set_image : Chat → string → Chat.
Variable chat_ask : Chat → string → string → bool → gmap string string * Chat.
Variable rand_draw : Rng → nat * Rng.

Implicit Types (w : @World Chat Rng) (kwargs : gmap string string).

Lemma bind_Some {A B : Type} (m : M (Chat := Chat) (Rng := Rng) A)
    (k : A → M B) w a w' :
  m w = Some (a, w') → bind m k w = k a w'.
Proof. intros H. unfold bind. by rewrite H. Qed.

Lemma dict_get_elem {V : Type} (d : list (string * V)) (k : string) (v : V) :
  dict_get d k = Some v → v ∈ map snd d.
Proof.
  induction d as [|[k' v'] d IH]; [done|]. cbn [dict_get map snd].
  destruct (String.eqb k' k); [intros [= ->]; by left | intros H; right; by apply IH].
Qed.

Lemma templates_length qtype entry :
  dict_get PLANNING_TEMPLATES qtype = Some entry → length (templates entry) = 5.
Proof.
  intros H%dict_get_elem. revert entry H. apply Forall_forall.
  unfold PLANNING_TEMPLATES. cbn [map snd]. by repeat constructor.
Qed.


Lemma templates_in_table qtype entry template :
  dict_get PLANNING_TEMPLATES qtype = Some entry →
  template ∈ templates entry → template ∈ all_templates.
Proof.
  unfold all_templates. intros Hget Hin.
  apply list_elem_of_In, in_concat. exists (templates entry).
  split; [|by apply list_elem_of_In].
  apply in_map_iff.
  induction PLANNING_TEMPLATES as [|[k e] d IH]; [done|].
  cbn [dict_get] in Hget. destruct (String.eqb k qtype).
  - injection Hget as ->. exists (k, entry). split; [done | by left].
  - destruct (IH Hget) as (x & Hx & Hin'). exists x. split; [done | by right].
Qed.

(** For a known query type [generate_prompt] returns the template the
    draw selects, filled by the loop. *)
Lemma generate_prompt_known qtype kwargs w entry :
  dict_get PLANNING_TEMPLATES qtype = Some entry →
  ∃ template,
    templates entry !! ((rand_draw (rng w)).1 mod length (templates entry))
    = Some template
    ∧ generate_prompt rand_draw qtype kwargs w
      = Some (fill_template template (replacements (session w) kwargs),
              after_draw rand_draw w).
Proof.
  intros Hget. pose proof (templates_length _ _ Hget) as Hlen.
  unfold generate_prompt, after_draw. rewrite Hget.
  unfold bind, random_choice.
  destruct (templates entry) as [|t0 ts] eqn:E; [done|].
  destruct (rand_draw (rng w)) as [d g]. cbn [fst snd].
  destruct ((t0 :: ts) !! (d mod length (t0 :: ts))) as [template|] eqn:El.
  - by exists template.
  - apply lookup_ge_None in El.
    pose proof (Nat.mod_upper_bound d (length (t0 :: ts))). lia.
Qed.

Lemma generate_prompt_unknown qtype kwargs w :
  dict_get PLANNING_TEMPLATES qtype = None →
  generate_prompt rand_draw qtype kwargs w
  = Some (default "Describe what you see." (kwargs !! "custom_prompt"), w).
Proof. intros Hget. unfold generate_prompt. by rewrite Hget. Qed.

(** [ask_planning] for a known query type: it returns a step record
    whatever the chat returns. *)
Lemma ask_planning_known qtype enable_thinking kwargs w entry :
  dict_get PLANNING_TEMPLATES qtype = Some entry →
  ∃ template,
    template ∈ templates entry
    ∧ let p := fill_template template (replacements (session w) kwargs) in
      ask_planning chat_ask rand_draw qtype enable_thinking kwargs w
      = Some (step_record qtype p (chat_ask (chat w) p "general" enable_thinking).1,
              after_ask chat_ask rand_draw w p enable_thinking).
Proof.
  intros Hget.
  destruct (generate_prompt_known qtype kwargs w entry Hget) as (template & Hl & Hg).
  exists template. split; [by eapply list_elem_of_lookup_2|].
  intros p. unfold ask_planning.
  rewrite (bind_Some _ _ _ _ _ Hg). fold p.
  unfold bind, ask, after_draw, after_ask, step_record. cbn [chat session run_dir rng fs].
  by destruct (chat_ask (chat w) p "general" enable_thinking) as [result c].
Qed.

(** Recording the extracted task changes the session only. *)
Lemma record_first_task first_task w :
  ∃ w',
    (match first_task with
     | Some tk =>
         if PyStr.truthy tk
         then modify_session (λ s, PlanningSession.set_current_task s tk)
         else ret tt
     | None => ret tt
     end) w = Some (tt, w')
    ∧ chat w' = chat w ∧ run_dir w' = run_dir w ∧ rng w' = rng w ∧ fs w' = fs w.
Proof.
  destruct first_task as [tk|]; [destruct (PyStr.truthy tk)|];
    eexists; (split; [reflexivity|done]).
Qed.

Lemma save_pipeline_results_spec results w :
  ∃ w',
    _save_pipeline_results results w = Some (tt, w')
    ∧ chat w' = chat w ∧ session w' = session w ∧ run_dir w' = run_dir w
    ∧ rng w' = rng w ∧ fs w' = saved (run_dir w) results (fs w).
Proof.
  unfold _save_pipeline_results, bind, get_run_dir, saved.
  destruct (run_dir w) as [dir|] eqn:E; eexists; (split; [reflexivity|]);
    cbn [chat session run_dir rng fs]; by rewrite ?E.
Qed.

(** The pipeline from start to end: it returns, with four step records
    built from what the chat returned, and saves the results. *)
Lemma run_planning_pipeline_spec goal enable_thinking now w :
  ∃ (r1 r2 r3 r4 : gmap string string) (p1 p2 p3 p4 : string) w',
    let s1 := step_record "generative_affordance" p1 r1 in
    let s2 := step_record "planning" p2 r2 in
    let s3 := step_record "affordance_positive" p3 r3 in
    let s4 := step_record "planning_remaining" p4 r4 in
    let results :=
      {| results_goal := goal; results_steps := [s1; s2; s3; s4];
         results_success := true; results_timestamp := now |} in
    run_planning_pipeline chat_ask rand_draw goal enable_thinking now w
    = Some (results, w')
    ∧ (∃ template sess,
         template ∈ templates_of "affordance_positive"
         ∧ p3 = fill_template template
                  (replacements sess {[ "task" := stage3_task (answer s2) ]}))
    ∧ run_dir w' = run_dir w
    ∧ fs w' = saved (run_dir w) results (fs w).
Proof.
  unfold run_planning_pipeline.
  erewrite bind_Some; [|reflexivity]. cbv beta zeta.
  match goal with |- context [bind _ _ ?w0] => set (w0' := w0) end.
  destruct (ask_planning_known "generative_affordance" enable_thinking ∅ w0' _ eq_refl)
    as (t1 & Hin1 & E1).
  cbv zeta in E1. erewrite bind_Some; [|exact E1]. clear E1. cbv beta.
  match goal with |- context [bind _ _ ?w0] => set (w1 := w0) end.
  destruct (ask_planning_known "planning" enable_thinking {[ "goal" := goal ]} w1 _ eq_refl)
    as (t2 & Hin2 & E2).
  cbv zeta in E2. erewrite bind_Some; [|exact E2]. clear E2. cbv beta.
  match goal with |- context [step_record "planning" ?p ?r] =>
    set (p2 := p); set (r2 := r) end.
  match goal with |- context [bind _ _ ?w0] => set (w2 := w0) end.
  destruct (record_first_task
              (_extract_task_from_answer (answer (step_record "planning" p2 r2))) w2)
    as (w2' & E & Hc & Hd & Hr & Hf).
  erewrite bind_Some; [|exact E]. clear E. cbv beta.
  rewrite stage3_task_or_else.
  destruct (ask_planning_known "affordance_positive" enable_thinking
              {[ "task" := stage3_task (answer (step_record "planning" p2 r2)) ]}
              w2' _ eq_refl) as (t3 & Hin3 & E3).
  cbv zeta in E3. erewrite bind_Some; [|exact E3]. clear E3. cbv beta.
  match goal with |- context [bind _ _ ?w0] => set (w3 := w0) end.
  destruct (ask_planning_known "planning_remaining" enable_thinking
              (<[ "num_steps" := "5" ]> {[ "goal" := goal ]}) w3 _ eq_refl)
    as (t4 & Hin4 & E4).
  cbv zeta in E4. erewrite bind_Some; [|exact E4]. clear E4. cbv beta.
  match goal with |- context [bind (_save_pipeline_results ?res) _ ?w0] =>
    destruct (save_pipeline_results_spec res w0) as (w5 & E5 & _ & _ & Hd5 & _ & Hf5)
  end.
  erewrite bind_Some; [|exact E5]. clear E5. cbv beta.
  do 8 eexists. exists w5. cbv zeta.
  split; [reflexivity|]. split; [|split].
  - exists t3, (session w2'). split; [exact Hin3 | reflexivity].
  - rewrite Hd5. subst w3. cbn [after_ask run_dir]. rewrite Hd. reflexivity.
  - rewrite Hf5. subst w3. cbn [after_ask run_dir fs]. rewrite Hd, Hf. reflexivity.
Qed.

(** Every step record of a run has [success = True], whatever the chat
    returned. *)
Lemma pipeline_steps_success goal enable_thinking now w :
  ∃ results w',
    run_planning_pipeline chat_ask rand_draw goal enable_thinking now w
    = Some (results, w')
    ∧ Forall (λ s, success s = true) (results_steps results).
Proof.
  destruct (run_planning_pipeline_spec goal enable_thinking now w)
    as (r1 & r2 & r3 & r4 & p1 & p2 & p3 & p4 & w' & H).
  cbv zeta in H. destruct H as (E & _).
  eexists. exists w'. split; [exact E|]. cbn [results_steps].
  by repeat constructor.
Qed.

(** *** Claims about the template engine *)

(** C3 (amended): for a known query type and whichever template the
    draw selects, if the values (supplied, else from the session, else the
    default) of the variables whose placeholders occur in the templates of
    the query type contain no placeholder, [generate_prompt] returns the
    template with every placeholder replaced by the value of its variable,
    and the prompt contains no placeholder; for an unknown query type it
    returns [custom_prompt] if supplied and "Describe what you see."
    otherwise, without raising. *)
Theorem generate_prompt_substitutes qtype kwargs w :
  (∀ v template,
     template ∈ templates_of qtype →
     PyStr.contains template (placeholder v) = true →
     placeholder_free (resolve (session w) kwargs v) = true) →
  match dict_get PLANNING_TEMPLATES qtype with
  | Some entry =>
      ∃ template,
        templates entry !! ((rand_draw (rng w)).1 mod length (templates entry))
        = Some template
        ∧ generate_prompt rand_draw qtype kwargs w
          = Some (substitute (resolve (session w) kwargs) template,
                  after_draw rand_draw w)
        ∧ placeholder_free (substitute (resolve (session w) kwargs) template) = true
  | None =>
      generate_prompt rand_draw qtype kwargs w
      = Some (default "Describe what you see." (kwargs !! "custom_prompt"), w)
  end.
Proof.
  intros Hval. unfold templates_of in Hval.
  destruct (dict_get PLANNING_TEMPLATES qtype) as [entry|] eqn:Hget.
  - destruct (generate_prompt_known qtype kwargs w entry Hget) as (template & Hl & Hg).
    exists template. split; [done|].
    assert (template ∈ templates entry) as Hin' by (by eapply list_elem_of_lookup_2).
    assert (template ∈ all_templates) as Hin by (by eapply templates_in_table).
    destruct (fill_template_substitute (session w) kwargs template Hin) as [E F].
    { intros v Hv. by eapply Hval. }
    rewrite <- E. by split.
  - by apply generate_prompt_unknown.
Qed.

Lemma replacements_ext (s1 s2 : PlanningSession.t) kwargs :
  PlanningSession.goal s1 = PlanningSession.goal s2 →
  PlanningSession.completed_tasks s1 = PlanningSession.completed_tasks s2 →
  PlanningSession.current_task s1 = PlanningSession.current_task s2 →
  replacements s1 kwargs = replacements s2 kwargs.
Proof.
  intros Hg Hc Ht.
  unfold replacements, PlanningSession.get_completed_steps_str,
    PlanningSession.get_last_task.
  by rewrite Hg, Hc, Ht.
Qed.



(** *** Claims about the pipeline *)

(** In a template of [affordance_positive] only [{task}] occurs: the loop
    of [generate_prompt] comes down to the replacements of [{task}] and,
    in what results, of [{num_steps}]. *)
Lemma affordance_positive_fill template (g c l t n : string) :
  template ∈ templates_of "affordance_positive" →
  fill_template template
    [("goal", g); ("completed_steps", c); ("last_task", l); ("task", t);
     ("num_steps", n)]
  = PyStr.replace (PyStr.replace template "{task}" t) "{num_steps}" n.
Proof.
  intros Hin. cbv [templates_of dict_get PLANNING_TEMPLATES String.eqb Ascii.eqb
                   Bool.eqb templates] in Hin.
  repeat (apply elem_of_cons in Hin as [->|Hin]); [reflexivity..|].
  by apply elem_of_nil in Hin.
Qed.

(** C1: for every goal the pipeline returns a results record with
    exactly four step records, of query types [generative_affordance],
    [planning], [affordance_positive], [planning_remaining] in this
    order; the prompt of stage 3 is a template of [affordance_positive]
    filled with the [task] variable set to the task extracted from the
    answer of stage 2, or to "the first step" when none is extracted. *)
Theorem pipeline_four_steps_in_order goal enable_thinking now w :
  ∃ s1 s2 s3 s4 w',
    run_planning_pipeline chat_ask rand_draw goal enable_thinking now w
    = Some ({| results_goal := goal; results_steps := [s1; s2; s3; s4];
               results_success := true; results_timestamp := now |}, w')
    ∧ length [s1; s2; s3; s4] = 4
    ∧ map query_type [s1; s2; s3; s4]
      = ["generative_affordance"; "planning"; "affordance_positive";
         "planning_remaining"]
    ∧ ∃ template repl,
        let tk := match _extract_task_from_answer (answer s2) with
                  | Some tk => tk
                  | None => "the first step"
                  end in
        template ∈ templates_of "affordance_positive"
        ∧ dict_get repl "task" = Some tk
        ∧ prompt s3 = fill_template template repl
        ∧ prompt s3
          = PyStr.replace (PyStr.replace template "{task}" tk) "{num_steps}" "5".
Proof.
  destruct (run_planning_pipeline_spec goal enable_thinking now w)
    as (r1 & r2 & r3 & r4 & p1 & p2 & p3 & p4 & w' & H).
  cbv zeta in H. destruct H as (E & (template & sess & Hin & Hp) & _ & _).
  do 4 eexists. exists w'. split; [exact E|].
  split; [done|]. split; [done|].
  exists template. eexists. cbv zeta. split; [exact Hin|].
  split; [|split; [exact Hp|]].
  - unfold replacements. rewrite lookup_singleton_eq. reflexivity.
  - cbn [prompt step_record]. rewrite Hp. unfold replacements.
    rewrite (affordance_positive_fill _ _ _ _ _ _ Hin).
    rewrite lookup_singleton_eq, lookup_singleton_ne by done. reflexivity.
Qed.

Lemma summary_steps_cons i step rest :
  summary_steps i (step :: rest) = step_section i step +:+ summary_steps (S i) rest.
Proof.
  unfold step_section. cbn [summary_steps]. by rewrite !str_app_assoc.
Qed.

(** C5 (amended): [set_image] creates the run directory
    [results/planning/run_<timestamp>] and makes it the run directory of
    the executor. A pipeline run creates no directory and keeps the run
    directory: if one is set, the run writes into it the results record
    (goal, timestamp, the four step records) as
    [pipeline_results.json] and the text rendering as
    [pipeline_summary.txt], a header followed by one section per step
    that starts with a separator line and the step heading; if none is
    set, the run writes nothing. *)
Theorem pipeline_results_saved :
  (∀ image now w,
     ∃ w', set_image chat_set_image image now w = Some (tt, w')
           ∧ run_dir w' = Some (path_join RESULTS_BASE_DIR ("run_" +:+ now))
           ∧ path_join RESULTS_BASE_DIR ("run_" +:+ now) ∈ dirs (fs w'))
  ∧ (∀ goal enable_thinking now w,
       ∃ s1 s2 s3 s4 w',
         let results :=
           {| results_goal := goal; results_steps := [s1; s2; s3; s4];
              results_success := true; results_timestamp := now |} in
         run_planning_pipeline chat_ask rand_draw goal enable_thinking now w
         = Some (results, w')
         ∧ run_dir w' = run_dir w
         ∧ dirs (fs w') = dirs (fs w)
         ∧ files (fs w')
           = match run_dir w with
             | Some dir =>
                 <[ path_join dir "pipeline_summary.txt"
                    := TextFile (summary_text results) ]>
                   (<[ path_join dir "pipeline_results.json" := JsonFile results ]>
                      (files (fs w)))
             | None => files (fs w)
             end
         ∧ summary_text results
           = summary_header results +:+ step_section 1 s1 +:+ step_section 2 s2
             +:+ step_section 3 s3 +:+ step_section 4 s4)
  ∧ (∀ i step,
       ∃ body,
         step_section i step
         = PyStr.repeat "-" 40 +:+ String newline ""
           +:+ "Step " +:+ PyStr.of_nat i +:+ ": " +:+ query_type step
           +:+ String newline ""
           +:+ PyStr.repeat "-" 40 +:+ String newline ""
           +:+ body).
Proof.
  split; [|split].
  - intros image now w. eexists. split; [reflexivity|]. split; [done|].
    cbn [fs mkdir dirs]. set_solver.
  - intros goal enable_thinking now w.
    destruct (run_planning_pipeline_spec goal enable_thinking now w)
      as (r1 & r2 & r3 & r4 & p1 & p2 & p3 & p4 & w' & H).
    cbv zeta in H. destruct H as (E & _ & Hd & Hf).
    do 4 eexists. exists w'. cbv zeta. split; [exact E|]. split; [exact Hd|].
    rewrite Hf. unfold saved, summary_text. cbn [results_steps].
    split; [by destruct (run_dir w)|]. split; [by destruct (run_dir w)|].
    rewrite !summary_steps_cons. cbn [summary_steps].
    by rewrite str_app_nil_r.
  - intros i step. eexists. unfold step_section. cbn [summary_steps].
    reflexivity.
Qed.

End ExecutorFacts.

(** ** Claims about task extraction *)

(** C2, as the specification words it (no white space is stripped from the
    lines), does not describe the code: an indented numbered line is
    returned by the code without indentation and numbering. *)
Lemma extract_task_differs_from_specified :
  _extract_task_from_answer "  1. pick up the cup" = Some "pick up the cup"
  ∧ extract_task_as_specified "  1. pick up the cup" = Some "  1. pick up the cup"
  ∧ _extract_task_from_answer "  1. pick up the cup"
    ≠ extract_task_as_specified "  1. pick up the cup".
Proof. repeat split. intros [=]. Qed.

(** C2 (amended): task extraction splits the answer at newlines, strips
    leading and trailing white space from each line, and returns the first
    stripped line longer than 10 characters with the prefixes
    "The next step is to ", "You should ", "First, ", "1. ", "- " removed in
    that order where present, cut at 100 characters; without such a line it
    returns [None]. "1. pick up the cup\nSome trailing note" gives
    "pick up the cup", and "" gives [None]. *)
Theorem extract_task_from_answer_spec :
  (∀ answer : string,
     let stripped := map PyStr.strip (PyStr.split newline answer) in
     match _extract_task_from_answer answer with
     | None => Forall (λ l, PyStr.len l ≤ 10) stripped
     | Some tk =>
         ∃ before line after,
           stripped = before ++ line :: after
           ∧ Forall (λ l, PyStr.len l ≤ 10) before
           ∧ 10 < PyStr.len line
           ∧ tk = PyStr.take 100
                    (remove_prefix
                       (remove_prefix
                          (remove_prefix
                             (remove_prefix
                                (remove_prefix line "The next step is to ")
                                "You should ")
                             "First, ")
                          "1. ")
                       "- ")
           ∧ PyStr.len tk ≤ 100
     end)
  ∧ _extract_task_from_answer
      ("1. pick up the cup" +:+ String newline "Some trailing note")
    = Some "pick up the cup"
  ∧ _extract_task_from_answer "" = None.
Proof.
  split; [|by split].
  intros answer stripped. subst stripped. unfold _extract_task_from_answer.
  pose proof (extract_task_loop_spec (PyStr.split newline answer)) as S.
  destruct (extract_task_loop (PyStr.split newline answer)) as [tk|].
  - destruct S as (before & line & after & E & Hb & Hlen & ->).
    exists (map PyStr.strip before), (PyStr.strip line), (map PyStr.strip after).
    split; [by rewrite E, map_app|]. split; [by apply Forall_map|].
    split; [done|]. split; [reflexivity | apply len_take].
  - by apply Forall_map.
Qed.

(** ** Claims about the planning session *)

Section Session.

Import PlanningSession.

Implicit Types (self : PlanningSession.t).

Lemma session_inv_init : session_inv init.
Proof. unfold session_inv. simpl. lia. Qed.

Lemma session_inv_step self o : session_inv self → session_inv (step self o).
Proof.
  unfold session_inv. destruct o; simpl; rewrite ?length_app; simpl; lia.
Qed.

Lemma run_snoc ops o : run (ops ++ [o]) = step (run ops) o.
Proof. unfold run. by rewrite fold_left_app. Qed.

(** C7: from the initial state, after any sequence of [set_goal],
    [add_completed_task], [set_current_task] and [reset], the session has
    no more completed tasks than history entries. *)
Theorem planning_session_invariant (ops : list op) :
  length (completed_tasks (run ops)) ≤ length (task_history (run ops)).
Proof.
  change (session_inv (run ops)).
  induction ops as [|o ops IH] using rev_ind; [apply session_inv_init|].
  rewrite run_snoc. by apply session_inv_step.
Qed.

(** C8: [set_goal] sets the goal, empties [completed_tasks], unsets
    [current_task] and leaves [task_history] as it is. *)
Theorem set_goal_frame self (g : string) :
  goal (set_goal self g) = Some g
  ∧ completed_tasks (set_goal self g) = []
  ∧ current_task (set_goal self g) = None
  ∧ task_history (set_goal self g) = task_history self
  ∧ length (task_history self) ≤ length (task_history (set_goal self g)).
Proof. by repeat split. Qed.

End Session.

(** ** Claims about the conversation memory *)

Section Memory.

Import ConversationMemory.

Lemma evict_drop max (ts : list Turn) : evict max ts = drop (length ts - max) ts.
Proof.
  induction ts as [|tn ts IH]; [done|].
  cbn [evict]. destruct (length (tn :: ts) <=? max) eqn:E.
  - apply Nat.leb_le in E. by replace (length (tn :: ts) - max) with 0 by lia.
  - apply Nat.leb_gt in E. rewrite IH. simpl in *.
    by replace (S (length ts) - max) with (S (length ts - max)) by lia.
Qed.

Lemma memory_run_snoc max ops o : run max (ops ++ [o]) = step (run max ops) o.
Proof. unfold run. by rewrite fold_left_app. Qed.

Lemma step_turns self o :
  turns (step self o) = evict (max_turns self) (turns self ++ [turn_of o]).
Proof. by destruct o. Qed.

Lemma step_max_turns self o : max_turns (step self o) = max_turns self.
Proof. by destruct o. Qed.

Lemma run_max_turns max ops : max_turns (run max ops) = max.
Proof.
  induction ops as [|o ops IH] using rev_ind; [done|].
  by rewrite memory_run_snoc, step_max_turns.
Qed.

(** The store holds the last [max] turns appended, in the order of the
    appends. *)
Lemma run_turns max ops :
  turns (run max ops) = drop (length ops - max) (map turn_of ops).
Proof.
  induction ops as [|o ops IH] using rev_ind; [done|].
  rewrite memory_run_snoc, step_turns, run_max_turns, IH, evict_drop.
  rewrite map_app, !length_app, length_drop, length_map. simpl.
  rewrite !drop_app, drop_drop, length_drop, length_map.
  f_equal; f_equal; lia.
Qed.

(** C6: whatever the bound [max_turns] (positive or not), after every
    append of a sequence of appends the store holds at most [max_turns]
    turns, and they are the most recent [max_turns] turns appended, in
    the order they were appended. *)
Theorem conversation_memory_bounded_fifo (max : nat) (ops : list op) :
  (∀ k, length (turns (run max (take k ops))) ≤ max)
  ∧ turns (run max ops) = drop (length ops - max) (map turn_of ops).
Proof.
  split; [|apply run_turns].
  intros k. rewrite run_turns, length_drop, length_map. lia.
Qed.

(** The unit test: a bound of 5 and ten question/answer pairs leave the
    5 turns appended last. *)
Example history_trimming :
  length (turns (run 5 (question_answer_pairs 0 10))) = 5
  ∧ map content (turns (run 5 (question_answer_pairs 0 10)))
    = ["Answer 7"; "Question 8"; "Answer 8"; "Question 9"; "Answer 9"].
Proof. by split. Qed.

End Memory.

(** ** The claims on concrete runs *)

(** C3, as stated, fails: a supplied value that is itself a placeholder
    text stays in the prompt. *)
Lemma generate_prompt_leaves_placeholder :
  fst <$> generate_prompt counter_draw "affordance_positive"
            {[ "task" := "{goal}" ]} (fresh_world [])
  = Some "Is {goal} something that can be accomplished right now?"
  ∧ placeholder_free "Is {goal} something that can be accomplished right now?" = false.
Proof. split; vm_compute; reflexivity. Qed.

(** C3 (amended) on a run: the goal "stack the blocks" supplied, the rest
    from a fresh session and the defaults. *)
Lemma generate_prompt_substitutes_witness :
  (∀ v template,
     template ∈ templates_of "planning_remaining" →
     PyStr.contains template (placeholder v) = true →
     placeholder_free
       (resolve (session (image_world [])) {[ "goal" := "stack the blocks" ]} v)
     = true)
  ∧ fst <$> generate_prompt counter_draw "planning_remaining"
              {[ "goal" := "stack the blocks" ]} (image_world [])
    = Some "With stack the blocks as the goal and the steps none completed, what are the next 5 things to do?".
Proof.
  assert (∀ v template,
            template ∈ templates_of "planning_remaining" →
            PyStr.contains template (placeholder v) = true →
            placeholder_free
              (resolve (session (image_world [])) {[ "goal" := "stack the blocks" ]} v)
            = true) as H
    by (intros [] ? _ _; vm_compute; reflexivity).
  split; [exact H|].
  pose proof (generate_prompt_substitutes counter_draw "planning_remaining"
                {[ "goal" := "stack the blocks" ]} (image_world []) H) as S.
  cbv beta iota delta [dict_get PLANNING_TEMPLATES String.eqb Ascii.eqb Bool.eqb] in S.
  destruct S as (template & Hl & -> & _).
  vm_compute in Hl. injection Hl as <-. vm_compute. reflexivity.
Defined.



(** C4 on a chat whose every call fails: the four stages run and the
    results are saved, but each failed stage is recorded with an empty
    answer, no error and [success = True]; and whatever the chat returns,
    every step record of a run has [success = True]. *)
Theorem pipeline_records_failed_stage_as_success :
  (∀ p, (scripted_ask [] p "general" false).1 = {[ "error" := "inference failed" ]})
  ∧ fst <$> demo_run "2024-01-01T12:00:00" (image_world [])
    = Some
        {| results_goal := "stack the blocks";
           results_steps :=
             [ {| query_type := "generative_affordance";
                  prompt := "What can you do at this moment?";
                  answer := ""; thinking := ""; success := true |};
               {| query_type := "planning";
                  prompt := "In pursuit of achieving stack the blocks, what's the next action to take?";
                  answer := ""; thinking := ""; success := true |};
               {| query_type := "affordance_positive";
                  prompt := "Is it feasible to begin the first step immediately?";
                  answer := ""; thinking := ""; success := true |};
               {| query_type := "planning_remaining";
                  prompt := "The goal is stack the blocks. After completing none, what are the next 5 steps you should take?";
                  answer := ""; thinking := ""; success := true |} ];
           results_success := true;
           results_timestamp := "2024-01-01T12:00:00" |}
  ∧ (λ x, files (fs x.2) !! path_join demo_run_dir "pipeline_results.json")
    <$> demo_run "2024-01-01T12:00:00" (image_world [])
    = (λ x, Some (JsonFile x.1)) <$> demo_run "2024-01-01T12:00:00" (image_world [])
  ∧ (∀ (Chat Rng : Type)
       (chat_ask : Chat → string → string → bool → gmap string string * Chat)
       (rand_draw : Rng → nat * Rng) goal enable_thinking now
       (w : World (Chat := Chat) (Rng := Rng)),
       ∃ results w',
         run_planning_pipeline chat_ask rand_draw goal enable_thinking now w
         = Some (results, w')
         ∧ Forall (λ s, success s = true) (results_steps results)).
Proof.
  split; [done|]. split; [vm_compute; reflexivity|]. split; [vm_compute; reflexivity|].
  intros. apply pipeline_steps_success.
Qed.

(** C5, as stated, fails: without an image set the run writes nothing, and
    two runs after one [set_image] share one directory, the second
    overwriting the files of the first. *)
Lemma pipeline_save_is_conditional :
  (fs ∘ snd) <$> demo_run "2024-01-01T12:00:00" (fresh_world []) = Some empty_fs
  ∧ (λ x, (dirs (fs x.2), dom (files (fs x.2))))
    <$> demo_run_twice "2024-01-01T12:00:00" "2024-01-01T12:05:00" (image_world [])
    = Some ({[ "results"; "results/planning"; demo_run_dir ]},
            {[ path_join demo_run_dir "pipeline_results.json";
               path_join demo_run_dir "pipeline_summary.txt" ]})
  ∧ (λ x, files (fs x.2) !! path_join demo_run_dir "pipeline_results.json")
    <$> demo_run_twice "2024-01-01T12:00:00" "2024-01-01T12:05:00" (image_world [])
    = (λ x, Some (JsonFile x.1))
      <$> demo_run_twice "2024-01-01T12:00:00" "2024-01-01T12:05:00" (image_world []).
Proof. split; [|split]; vm_compute; reflexivity. Qed.

(** ** Default values *)

(** C10: a variable that is not supplied and for which the session holds
    nothing gets its fixed default in the replacements of
    [generate_prompt]: "complete the task" for [goal], "none" for
    [completed_steps], "starting the task" for [last_task],
    "the current task" for [task], "5" for [num_steps]; and whenever
    [completed_steps] is not supplied, its replacement is "none" without
    completed tasks in the session and otherwise their 1-indexed
    enumeration "1-task, 2-task, ...", separated by ", ". *)
Theorem default_substitution_values (sess : PlanningSession.t)
    (kwargs : gmap string string) (v : TemplateVar) :
  kwargs !! var_name v = None →
  session_value sess v = None →
  dict_get (replacements sess kwargs) (var_name v)
  = Some (match v with
          | VGoal => "complete the task"
          | VCompletedSteps => "none"
          | VLastTask => "starting the task"
          | VTask => "the current task"
          | VNumSteps => "5"
          end)
  ∧ ∀ (s : PlanningSession.t) (k : gmap string string),
      k !! "completed_steps" = None →
      dict_get (replacements s k) "completed_steps"
      = Some (match PlanningSession.completed_tasks s with
              | [] => "none"
              | tasks =>
                  PyStr.join ", "
                    (zip_with (λ i tk, PyStr.of_nat i +:+ "-" +:+ tk)
                       (seq 1 (length tasks)) tasks)
              end).
Proof.
  intros Hk Hs. split.
  - rewrite replacements_resolve. unfold resolve.
    destruct v; cbn [map template_vars dict_get var_name] in *;
      rewrite Hk, Hs; reflexivity.
  - intros s k Hc. unfold replacements. cbn [dict_get String.eqb Ascii.eqb Bool.eqb].
    rewrite Hc. cbn [default]. f_equal.
    unfold PlanningSession.get_completed_steps_str.
    destruct (PlanningSession.completed_tasks s) as [|tk tasks]; [done|].
    by rewrite numbered_from_zip.
Qed.

(** C10 on a fresh session without supplied variables, and the
    enumeration in the replacements for a session with two completed
    tasks. *)
Lemma default_substitution_values_witness :
  (∅ : gmap string string) !! var_name VGoal = None
  ∧ session_value PlanningSession.init VGoal = None
  ∧ dict_get (replacements PlanningSession.init ∅) "goal" = Some "complete the task"
  ∧ dict_get (replacements busy_session ∅) "completed_steps"
    = Some "1-locate the red block, 2-grasp the red block".
Proof.
  assert ((∅ : gmap string string) !! var_name VGoal = None) as Hk by reflexivity.
  assert (session_value PlanningSession.init VGoal = None) as Hs by reflexivity.
  destruct (default_substitution_values PlanningSession.init ∅ VGoal Hk Hs) as [Hd He].
  split; [exact Hk|]. split; [exact Hs|]. split; [exact Hd|].
  rewrite (He busy_session ∅ (lookup_empty _)). reflexivity.
Defined.

(** All defaults at once, in the prompt of a fresh executor. *)
Example defaults_in_prompt :
  replacements PlanningSession.init ∅
  = [("goal", "complete the task"); ("completed_steps", "none");
     ("last_task", "starting the task"); ("task", "the current task");
     ("num_steps", "5")]
  ∧ fst <$> generate_prompt counter_draw "planning_remaining" ∅ (fresh_world [])
    = Some "With complete the task as the goal and the steps none completed, what are the next 5 things to do?".
Proof. split; vm_compute; reflexivity. Qed.

(** * Further properties of the code *)

(** ** The planning session *)

Section SessionMore.

Import PlanningSession.

Implicit Types (self : PlanningSession.t).

Lemma session_step_suffix self o :
  completed_tasks self `suffix_of` map task (task_history self) →
  completed_tasks (step self o) `suffix_of` map task (task_history (step self o)).
Proof.
  intros [k Hk]. destruct o; simpl.
  - apply suffix_nil.
  - rewrite map_app, Hk. simpl. exists k. by rewrite <- app_assoc.
  - by exists k.
  - apply suffix_nil.
Qed.

Lemma session_step_status self o :
  Forall (λ e, status e = "completed") (task_history self) →
  Forall (λ e, status e = "completed") (task_history (step self o)).
Proof.
  intros H. destruct o; simpl; try done.
  apply Forall_app. split; [done|]. by repeat constructor.
Qed.

(** From the initial state, after any sequence of operations the completed
    tasks are the tasks of the last history entries, in the same order, and
    every history entry has the status "completed". *)
Theorem session_history_records_completed (ops : list op) :
  completed_tasks (run ops) `suffix_of` map task (task_history (run ops))
  ∧ Forall (λ e, status e = "completed") (task_history (run ops)).
Proof.
  induction ops as [|o ops [IH1 IH2]] using rev_ind.
  - split; [apply suffix_nil | constructor].
  - rewrite run_snoc. split; [by apply session_step_suffix | by apply session_step_status].
Qed.

Lemma join_snoc sep (parts : list string) (p : string) :
  PyStr.join sep (parts ++ [p])
  = match parts with
    | [] => p
    | _ => PyStr.join sep parts +:+ sep +:+ p
    end.
Proof.
  induction parts as [|q parts IH]; [done|].
  destruct parts as [|q' parts]; [done|].
  change (PyStr.join sep ((q :: q' :: parts) ++ [p]))
    with (q +:+ sep +:+ PyStr.join sep ((q' :: parts) ++ [p])).
  rewrite IH.
  change (PyStr.join sep (q :: q' :: parts))
    with (q +:+ sep +:+ PyStr.join sep (q' :: parts)).
  by rewrite !str_app_assoc.
Qed.

Lemma numbered_from_snoc i (tasks : list string) (tk : string) :
  numbered_from i (tasks ++ [tk])
  = numbered_from i tasks ++ [PyStr.of_nat (i + length tasks + 1) +:+ "-" +:+ tk].
Proof.
  revert i. induction tasks as [|t tasks IH]; intros i; simpl.
  - by rewrite Nat.add_0_r.
  - rewrite IH.
    by replace (S i + length tasks + 1) with (i + S (length tasks) + 1) by lia.
Qed.

Lemma steps_str_snoc (tasks : list string) (tk : string) :
  tasks ≠ [] →
  PyStr.join ", " (numbered_from 0 (tasks ++ [tk]))
  = PyStr.join ", " (numbered_from 0 tasks) +:+ ", "
    +:+ PyStr.of_nat (length tasks + 1) +:+ "-" +:+ tk.
Proof.
  intros Hne. rewrite numbered_from_snoc, join_snoc.
  by destruct tasks.
Qed.

(** Marking a task as completed makes it the last task and appends its
    numbered entry to the string of completed steps: "n-task" after ", "
    when there were completed steps, "1-task" in place of "none"
    otherwise. *)
Theorem add_completed_task_extends_steps self (tk now : string) :
  get_last_task (add_completed_task self tk now) = tk
  ∧ get_completed_steps_str (add_completed_task self tk now)
    = match completed_tasks self with
      | [] => "1-" +:+ tk
      | _ =>
          get_completed_steps_str self +:+ ", "
          +:+ PyStr.of_nat (length (completed_tasks self) + 1) +:+ "-" +:+ tk
      end.
Proof.
  split.
  - unfold get_last_task. simpl. by rewrite last_snoc.
  - unfold get_completed_steps_str, add_completed_task. cbn [completed_tasks].
    destruct (completed_tasks self) as [|t tasks]; [done|].
    exact (steps_str_snoc (t :: tasks) tk ltac:(done)).
Qed.

(** The string of completed steps is "none" exactly when no task is
    completed. *)
Theorem completed_steps_none_iff self :
  get_completed_steps_str self = "none" ↔ completed_tasks self = [].
Proof.
  unfold get_completed_steps_str.
  destruct (completed_tasks self) as [|t tasks]; [done|].
  split; [|done]. cbn [numbered_from].
  destruct (numbered_from 1 tasks); simpl; intros [=].
Qed.

End SessionMore.

(** ** The template engine and the query lines of [main] *)

Section TemplatesMore.

Context {Chat Rng : Type}.
Variable rand_draw : Rng → nat * Rng.

Implicit Types (w : @World Chat Rng) (kwargs : gmap string string).

Lemma replace_brace_free k new (s : string) :
  brace_free s = true → PyStr.replace_from (String open_brace k) new 0 s = s.
Proof.
  intros H. rewrite <- (str_app_nil_r s) at 1.
  rewrite replace_from_brace_free by done. apply str_app_nil_r.
Qed.

(** A template without an opening brace is left as it is, whatever the
    replacements. *)
Lemma fill_template_brace_free (template : string) (repl : list (string * string)) :
  brace_free template = true → fill_template template repl = template.
Proof.
  intros H. unfold fill_template. induction repl as [|[k v] repl IH]; [done|].
  cbn [fold_left fst snd].
  change (PyStr.replace template ("{" +:+ k +:+ "}") v)
    with (PyStr.replace_from (String open_brace (k +:+ "}")) v 0 template).
  by rewrite replace_brace_free.
Qed.

(** For the query types without placeholders, [generative_affordance] and
    [past_description], [generate_prompt] returns one of the templates as
    it is written, whatever is supplied and whatever the session holds. *)
Theorem generate_prompt_plain qtype kwargs w :
  qtype = "generative_affordance" ∨ qtype = "past_description" →
  ∃ template,
    template ∈ templates_of qtype
    ∧ generate_prompt rand_draw qtype kwargs w
      = Some (template, after_draw rand_draw w).
Proof.
  intros Hq.
  assert (∃ entry, dict_get PLANNING_TEMPLATES qtype = Some entry
                   ∧ Forall (λ t, brace_free t = true) (templates entry))
    as (entry & Hget & Hfree).
  { destruct Hq as [-> | ->]; eexists; (split; [reflexivity|]);
      repeat constructor. }
  destruct (generate_prompt_known rand_draw qtype kwargs w entry Hget)
    as (template & Hl & ->).
  apply list_elem_of_lookup_2 in Hl.
  exists template. unfold templates_of. rewrite Hget. split; [done|].
  rewrite Forall_forall in Hfree. by rewrite fill_template_brace_free by auto.
Qed.

Lemma single_hole_fill val v (cs : list Chunk) :
  (∀ v', Hole v' ∈ cs → v' = v) →
  map (fill_all val) cs = map (fill_hole v (val v)) cs.
Proof.
  induction cs as [|ch cs IH]; intros H; [done|]. cbn [map].
  rewrite IH by (intros v' Hin; apply H; by right). f_equal.
  destruct ch as [l|l|v']; try done. cbn [fill_all fill_hole].
  rewrite (H v') by (by left). by rewrite decide_True.
Qed.

(** When the placeholder of one variable only occurs in a template of the
    table and its value contains no placeholder, the loop of
    [generate_prompt] is one [replace]. *)
Lemma fill_template_single sess kwargs (template : string) v :
  template ∈ all_templates →
  (∀ v', PyStr.contains template (placeholder v') = true → v' = v) →
  placeholder_free (resolve sess kwargs v) = true →
  fill_template template (replacements sess kwargs)
  = PyStr.replace template (placeholder v) (resolve sess kwargs v).
Proof.
  intros Hin Hone Hx.
  destruct (fill_template_substitute sess kwargs template Hin) as [E _].
  { intros v' Hv'. by rewrite (Hone v' Hv'). }
  rewrite E. destruct (template_ok_parse _ Hin) as (Hok & Hrender & Hholes).
  rewrite <- Hrender at 1 2.
  rewrite substitute_render, replace_render by done.
  f_equal. apply single_hole_fill. intros v' Hv'. by apply Hone, Hholes.
Qed.

(** For the query types with one variable ([goal] for [planning],
    [last_task] for [future_prediction], [task] for [success_detection],
    [affordance_positive] and [affordance_negative]), when the variable is
    supplied with a value that contains no placeholder the prompt is the
    selected template with the placeholder replaced by that value: the
    session has no part in it. *)
Theorem generate_prompt_single_variable qtype v (x : string) kwargs w :
  (qtype, v) ∈ single_variable_types →
  kwargs !! var_name v = Some x →
  placeholder_free x = true →
  ∃ template,
    template ∈ templates_of qtype
    ∧ generate_prompt rand_draw qtype kwargs w
      = Some (PyStr.replace template (placeholder v) x, after_draw rand_draw w).
Proof.
  intros Hin Hk Hx.
  assert (resolve (session w) kwargs v = x) as Hres
    by (unfold resolve; by rewrite Hk).
  assert (∃ entry, dict_get PLANNING_TEMPLATES qtype = Some entry
                   ∧ Forall (λ t, ∀ v', PyStr.contains t (placeholder v') = true → v' = v)
                       (templates entry))
    as (entry & Hget & Hone).
  { unfold single_variable_types in Hin.
    repeat (apply elem_of_cons in Hin as [[= -> ->]|Hin];
            [eexists; split; [reflexivity|];
             repeat constructor; intros []; vm_compute; congruence|]).
    by apply elem_of_nil in Hin. }
  destruct (generate_prompt_known rand_draw qtype kwargs w entry Hget)
    as (template & Hl & ->).
  apply list_elem_of_lookup_2 in Hl.
  exists template. unfold templates_of. rewrite Hget. split; [done|].
  rewrite Forall_forall in Hone.
  rewrite (fill_template_single (session w) kwargs template v), Hres; try done.
  - by eapply templates_in_table.
  - by apply Hone.
  - by rewrite Hres.
Qed.

End TemplatesMore.

Lemma generate_prompt_plain_witness :
  ("past_description" = "generative_affordance" ∨ "past_description" = "past_description")
  ∧ ∃ template,
      template ∈ templates_of "past_description"
      ∧ generate_prompt counter_draw "past_description"
          {[ "goal" := "{task}"; "task" := "{goal}" ]} (fresh_world [])
        = Some (template, after_draw counter_draw (fresh_world [])).
Proof.
  split; [by right|].
  apply (generate_prompt_plain counter_draw "past_description"). by right.
Defined.

Lemma generate_prompt_single_variable_witness :
  ("affordance_positive", VTask) ∈ single_variable_types
  ∧ ({[ "task" := "grasp the cup" ]} : gmap string string) !! var_name VTask
    = Some "grasp the cup"
  ∧ placeholder_free "grasp the cup" = true
  ∧ ∃ template,
      template ∈ templates_of "affordance_positive"
      ∧ generate_prompt counter_draw "affordance_positive"
          {[ "task" := "grasp the cup" ]} (fresh_world [])
        = Some (PyStr.replace template (placeholder VTask) "grasp the cup",
                after_draw counter_draw (fresh_world [])).
Proof.
  assert (("affordance_positive", VTask) ∈ single_variable_types) as H1
    by (unfold single_variable_types; set_solver).
  assert (({[ "task" := "grasp the cup" ]} : gmap string string) !! var_name VTask
          = Some "grasp the cup") as H2 by reflexivity.
  assert (placeholder_free "grasp the cup" = true) as H3 by reflexivity.
  split; [exact H1|]. split; [exact H2|]. split; [exact H3|].
  exact (generate_prompt_single_variable counter_draw "affordance_positive" VTask
           "grasp the cup" _ (fresh_world []) H1 H2 H3).
Defined.

(** Every short name of [query_map] stands for a query type of the
    template table (with its five templates), so that a query line with a
    short name never gets the fallback prompt. *)
Theorem query_map_known (alias qtype : string) :
  dict_get query_map alias = Some qtype →
  PyStr.truthy qtype = true
  ∧ ∃ entry,
      dict_get PLANNING_TEMPLATES qtype = Some entry
      ∧ length (templates entry) = 5.
Proof.
  unfold query_map. cbn [dict_get].
  repeat (destruct (String.eqb _ alias);
          [intros [= <-]; split; [done|]; eexists; split; reflexivity|]).
  done.
Qed.

Lemma query_map_known_witness :
  dict_get query_map "feasible" = Some "affordance_positive"
  ∧ PyStr.truthy "affordance_positive" = true
  ∧ ∃ entry,
      dict_get PLANNING_TEMPLATES "affordance_positive" = Some entry
      ∧ length (templates entry) = 5.
Proof.
  assert (dict_get query_map "feasible" = Some "affordance_positive") as H
    by reflexivity.
  split; [exact H|]. exact (query_map_known "feasible" "affordance_positive" H).
Defined.

(** The extra argument of a query line goes to a variable of the query
    type: [query_kwargs] supplies it under the name of a variable whose
    placeholder occurs in every template of the type, or supplies nothing
    when the templates of the type have no placeholder. *)
Theorem query_kwargs_placement (alias qtype extra_arg : string) :
  dict_get query_map alias = Some qtype →
  PyStr.truthy extra_arg = true →
  (∃ v, query_kwargs qtype extra_arg = {[ var_name v := extra_arg ]}
        ∧ Forall (λ t, PyStr.contains t (placeholder v) = true) (templates_of qtype))
  ∨ (query_kwargs qtype extra_arg = ∅
     ∧ Forall (λ t, brace_free t = true) (templates_of qtype)).
Proof.
  intros Hget Ht. unfold query_kwargs. rewrite Ht.
  unfold query_map in Hget. cbn [dict_get] in Hget.
  repeat (destruct (String.eqb _ alias);
          [injection Hget as <-;
           first
             [ right; split; [reflexivity | by repeat constructor]
             | left; exists VGoal; split; [reflexivity | by repeat constructor]
             | left; exists VTask; split; [reflexivity | by repeat constructor]
             | left; exists VLastTask; split; [reflexivity | by repeat constructor] ]
          |]).
  done.
Qed.

Lemma query_kwargs_placement_witness :
  dict_get query_map "can" = Some "affordance_positive"
  ∧ PyStr.truthy "grasp the cup" = true
  ∧ ((∃ v, query_kwargs "affordance_positive" "grasp the cup"
           = {[ var_name v := "grasp the cup" ]}
           ∧ Forall (λ t, PyStr.contains t (placeholder v) = true)
               (templates_of "affordance_positive"))
     ∨ (query_kwargs "affordance_positive" "grasp the cup" = ∅
        ∧ Forall (λ t, brace_free t = true) (templates_of "affordance_positive"))).
Proof.
  assert (dict_get query_map "can" = Some "affordance_positive") as H1 by reflexivity.
  assert (PyStr.truthy "grasp the cup" = true) as H2 by reflexivity.
  split; [exact H1|]. split; [exact H2|].
  exact (query_kwargs_placement "can" "affordance_positive" "grasp the cup" H1 H2).
Defined.

(** ** The pipeline, stage by stage *)

Section PipelineMore.

Context {Chat Rng : Type}.
Variable chat_set_image : Chat → string → Chat.
Variable chat_ask : Chat → string → string → bool → gmap string string * Chat.
Variable rand_draw : Rng → nat * Rng.

Implicit Types (w : @World Chat Rng) (kwargs : gmap string string).

Lemma ask_planning_exact qtype enable_thinking kwargs w entry :
  dict_get PLANNING_TEMPLATES qtype = Some entry →
  ask_planning chat_ask rand_draw qtype enable_thinking kwargs w
  = Some (stage_record chat_ask rand_draw qtype kwargs enable_thinking w,
          stage_world chat_ask rand_draw qtype kwargs enable_thinking w).
Proof.
  intros Hget.
  destruct (generate_prompt_known rand_draw qtype kwargs w entry Hget)
    as (template & Hl & Hg).
  unfold ask_planning. rewrite (bind_Some _ _ _ _ _ Hg).
  unfold stage_record, stage_world, stage_prompt, chosen_template, templates_of.
  rewrite Hget, Hl. cbn [default from_option id].
  unfold bind, ask, after_draw, after_ask, step_record.
  cbn [chat session run_dir rng fs].
  by destruct (chat_ask (chat w) _ "general" enable_thinking) as [result c].
Qed.

(** The pipeline returns, with the results and the world of
    [pipeline_outcome]. *)
Lemma run_planning_pipeline_outcome goal enable_thinking now w :
  run_planning_pipeline chat_ask rand_draw goal enable_thinking now w
  = Some (pipeline_outcome chat_ask rand_draw goal enable_thinking now w).
Proof.
  unfold run_planning_pipeline, pipeline_outcome.
  erewrite bind_Some; [|reflexivity]. cbv beta zeta.
  erewrite bind_Some; [|by eapply ask_planning_exact]. cbv beta.
  erewrite bind_Some; [|by eapply ask_planning_exact]. cbv beta.
  rewrite stage3_task_or_else.
  match goal with |- context [_extract_task_from_answer ?a] =>
    destruct (_extract_task_from_answer a) as [tk|] eqn:E end.
  - rewrite (extract_task_truthy _ _ E).
    erewrite bind_Some; [|reflexivity]. cbv beta.
    erewrite bind_Some; [|by eapply ask_planning_exact]. cbv beta.
    erewrite bind_Some; [|by eapply ask_planning_exact]. cbv beta.
    match goal with |- context [bind (_save_pipeline_results ?res) _ ?w0] =>
      destruct (run_dir w) as [d|] eqn:Ed;
      unfold bind at 1, _save_pipeline_results, bind, get_run_dir, modify_fs, ret, saved
    end; cbn [chat session run_dir rng fs stage_world after_ask]; by rewrite ?Ed.
  - erewrite bind_Some; [|reflexivity]. cbv beta.
    erewrite bind_Some; [|by eapply ask_planning_exact]. cbv beta.
    erewrite bind_Some; [|by eapply ask_planning_exact]. cbv beta.
    match goal with |- context [bind (_save_pipeline_results ?res) _ ?w0] =>
      destruct (run_dir w) as [d|] eqn:Ed;
      unfold bind at 1, _save_pipeline_results, bind, get_run_dir, modify_fs, ret, saved
    end; cbn [chat session run_dir rng fs stage_world after_ask]; by rewrite ?Ed.
Qed.

(** After a pipeline run the session holds the goal of the run, no
    completed task (those recorded before are dropped), the task extracted
    from the answer of stage 2 as current task (none when nothing was
    extracted), and the history it had. *)
Theorem pipeline_session_after goal enable_thinking now w :
  ∃ results w' s2,
    run_planning_pipeline chat_ask rand_draw goal enable_thinking now w
    = Some (results, w')
    ∧ results_steps results !! 1 = Some s2
    ∧ PlanningSession.goal (session w') = Some goal
    ∧ PlanningSession.completed_tasks (session w') = []
    ∧ PlanningSession.current_task (session w')
      = _extract_task_from_answer (answer s2)
    ∧ PlanningSession.task_history (session w')
      = PlanningSession.task_history (session w).
Proof.
  rewrite run_planning_pipeline_outcome. unfold pipeline_outcome.
  eexists _, _, _. split; [reflexivity|]. split; [reflexivity|].
  cbn [session stage_world after_ask].
  by destruct (_extract_task_from_answer _).
Qed.

(** A pipeline run asks the chat exactly the four prompts of its step
    records, in order, each with the task "general"; the answer and the
    thinking of each record are what the chat returned for its prompt (the
    empty string where the result has no such entry); and four numbers are
    drawn from the random source. *)
Theorem pipeline_asks_what_it_records goal enable_thinking now w :
  ∃ s1 s2 s3 s4 w',
    run_planning_pipeline chat_ask rand_draw goal enable_thinking now w
    = Some ({| results_goal := goal; results_steps := [s1; s2; s3; s4];
               results_success := true; results_timestamp := now |}, w')
    ∧ let a1 := chat_ask (chat w) (prompt s1) "general" enable_thinking in
      let a2 := chat_ask a1.2 (prompt s2) "general" enable_thinking in
      let a3 := chat_ask a2.2 (prompt s3) "general" enable_thinking in
      let a4 := chat_ask a3.2 (prompt s4) "general" enable_thinking in
      chat w' = a4.2
      ∧ map answer [s1; s2; s3; s4]
        = map (λ a, default "" (a.1 !! "answer")) [a1; a2; a3; a4]
      ∧ map thinking [s1; s2; s3; s4]
        = map (λ a, default "" (a.1 !! "thinking")) [a1; a2; a3; a4]
      ∧ rng w'
        = (rand_draw (rand_draw (rand_draw (rand_draw (rng w)).2).2).2).2.
Proof.
  rewrite run_planning_pipeline_outcome. unfold pipeline_outcome.
  eexists _, _, _, _, _. split; [reflexivity|]. cbv zeta.
  by repeat split.
Qed.

Lemma ask_planning_agree qtype enable_thinking kwargs w1 w2 entry :
  dict_get PLANNING_TEMPLATES qtype = Some entry →
  agree w1 w2 →
  ∃ step w1' w2',
    ask_planning chat_ask rand_draw qtype enable_thinking kwargs w1 = Some (step, w1')
    ∧ ask_planning chat_ask rand_draw qtype enable_thinking kwargs w2 = Some (step, w2')
    ∧ agree w1' w2'.
Proof.
  intros Hget (Hc & Hr & Hg & Hd & Ht).
  rewrite !(ask_planning_exact _ _ _ _ entry Hget).
  assert (stage_prompt rand_draw qtype kwargs w1 = stage_prompt rand_draw qtype kwargs w2)
    as Hp.
  { unfold stage_prompt. by rewrite Hr, (replacements_ext _ _ kwargs Hg Hd Ht). }
  eexists _, _, _. split; [reflexivity|]. split.
  - unfold stage_record, stage_world. by rewrite Hp, Hc.
  - unfold stage_world, after_ask, agree. cbn [chat session rng].
    by rewrite Hp, Hc, Hr.
Qed.

Lemma record_first_task_agree (first_task : option string) w1 w2 :
  agree w1 w2 →
  ∃ w1' w2',
    (match first_task with
     | Some tk =>
         if PyStr.truthy tk
         then modify_session (λ s, PlanningSession.set_current_task s tk)
         else ret tt
     | None => ret tt
     end) w1 = Some (tt, w1')
    ∧ (match first_task with
       | Some tk =>
           if PyStr.truthy tk
           then modify_session (λ s, PlanningSession.set_current_task s tk)
           else ret tt
       | None => ret tt
       end) w2 = Some (tt, w2')
    ∧ agree w1' w2'.
Proof.
  intros H. destruct first_task as [tk|]; [destruct (PyStr.truthy tk)|];
    eexists _, _; (split; [reflexivity|]); (split; [reflexivity|]); try done.
  destruct H as (? & ? & ? & ? & ?). by repeat split.
Qed.

(** The results of a pipeline run are fixed by the goal, the thinking
    flag, the time, the chat and the random state: what the session held
    before the run (goal, completed tasks, current task, history), the run
    directory and the files have no part in them. *)
Theorem pipeline_results_independent_of_session goal enable_thinking now w1 w2 :
  chat w1 = chat w2 →
  rng w1 = rng w2 →
  fst <$> run_planning_pipeline chat_ask rand_draw goal enable_thinking now w1
  = fst <$> run_planning_pipeline chat_ask rand_draw goal enable_thinking now w2.
Proof.
  intros Hc Hr. unfold run_planning_pipeline.
  assert (agree
            {| chat := chat w1; session := PlanningSession.set_goal (session w1) goal;
               run_dir := run_dir w1; rng := rng w1; fs := fs w1 |}
            {| chat := chat w2; session := PlanningSession.set_goal (session w2) goal;
               run_dir := run_dir w2; rng := rng w2; fs := fs w2 |}) as H0
    by (by repeat split).
  rewrite !(bind_Some (modify_session _) _ _ tt _ eq_refl). cbv beta zeta.
  destruct (ask_planning_agree "generative_affordance" enable_thinking ∅ _ _ _
              eq_refl H0) as (s1 & a1 & b1 & Ea & Eb & H1).
  rewrite (bind_Some _ _ _ _ _ Ea), (bind_Some _ _ _ _ _ Eb). clear Ea Eb. cbv beta.
  destruct (ask_planning_agree "planning" enable_thinking {[ "goal" := goal ]} _ _ _
              eq_refl H1) as (s2 & a2 & b2 & Ea & Eb & H2).
  rewrite (bind_Some _ _ _ _ _ Ea), (bind_Some _ _ _ _ _ Eb). clear Ea Eb. cbv beta.
  destruct (record_first_task_agree (_extract_task_from_answer (answer s2)) _ _ H2)
    as (a2' & b2' & Ea & Eb & H2').
  rewrite (bind_Some _ _ _ _ _ Ea), (bind_Some _ _ _ _ _ Eb). clear Ea Eb. cbv beta.
  destruct (ask_planning_agree "affordance_positive" enable_thinking
              {[ "task" := PyStr.or_else (_extract_task_from_answer (answer s2))
                             "the first step" ]} _ _ _ eq_refl H2')
    as (s3 & a3 & b3 & Ea & Eb & H3).
  rewrite (bind_Some _ _ _ _ _ Ea), (bind_Some _ _ _ _ _ Eb). clear Ea Eb. cbv beta.
  destruct (ask_planning_agree "planning_remaining" enable_thinking
              (<[ "num_steps" := "5" ]> {[ "goal" := goal ]}) _ _ _ eq_refl H3)
    as (s4 & a4 & b4 & Ea & Eb & H4).
  rewrite (bind_Some _ _ _ _ _ Ea), (bind_Some _ _ _ _ _ Eb). clear Ea Eb. cbv beta.
  match goal with
  | |- context [bind (_save_pipeline_results ?res) _ a4] =>
      destruct (save_pipeline_results_spec res a4) as (a5 & Ea & _);
      destruct (save_pipeline_results_spec res b4) as (b5 & Eb & _)
  end.
  rewrite (bind_Some _ _ _ _ _ Ea), (bind_Some _ _ _ _ _ Eb). reflexivity.
Qed.

Lemma str_app_inv_head (s a b : string) : s +:+ a = s +:+ b → a = b.
Proof.
  induction s as [|c s IH]; [done|]. rewrite !str_app_cons. intros [= H]. by apply IH.
Qed.

Lemma results_summary_paths_differ (d : string) :
  path_join d "pipeline_summary.txt" ≠ path_join d "pipeline_results.json".
Proof. unfold path_join. by intros [=]%str_app_inv_head. Qed.

Lemma pipeline_outcome_files goal enable_thinking now w (d : string) :
  run_dir w = Some d →
  files (fs (pipeline_outcome chat_ask rand_draw goal enable_thinking now w).2)
  = <[ path_join d "pipeline_summary.txt"
       := TextFile (summary_text
                      (pipeline_outcome chat_ask rand_draw goal enable_thinking now w).1) ]>
      (<[ path_join d "pipeline_results.json"
          := JsonFile (pipeline_outcome chat_ask rand_draw goal enable_thinking now w).1 ]>
         (files (fs w))).
Proof.
  intros Hd. unfold pipeline_outcome.
  cbn [fst snd fs run_dir stage_world after_ask]. rewrite Hd. reflexivity.
Qed.

(** With a run directory set, after a pipeline run the results returned
    are read back from [pipeline_results.json] and their text rendering
    from [pipeline_summary.txt] in that directory, and every other path
    holds what it held. *)
Theorem pipeline_files_read_back goal enable_thinking now w (d : string) :
  run_dir w = Some d →
  ∃ results w',
    run_planning_pipeline chat_ask rand_draw goal enable_thinking now w
    = Some (results, w')
    ∧ files (fs w') !! path_join d "pipeline_results.json" = Some (JsonFile results)
    ∧ files (fs w') !! path_join d "pipeline_summary.txt"
      = Some (TextFile (summary_text results))
    ∧ ∀ p, p ≠ path_join d "pipeline_results.json" →
           p ≠ path_join d "pipeline_summary.txt" →
           files (fs w') !! p = files (fs w) !! p.
Proof.
  intros Hd. rewrite run_planning_pipeline_outcome.
  destruct (pipeline_outcome chat_ask rand_draw goal enable_thinking now w)
    as [results w'] eqn:E.
  exists results, w'. split; [reflexivity|].
  pose proof (pipeline_outcome_files goal enable_thinking now w d Hd) as Hf.
  rewrite E in Hf. cbn [fst snd] in Hf. rewrite Hf. split; [|split].
  - rewrite lookup_insert_ne by apply results_summary_paths_differ.
    by rewrite lookup_insert_eq.
  - by rewrite lookup_insert_eq.
  - intros p H1 H2. by rewrite !lookup_insert_ne.
Qed.

(** Once an image is set, a pipeline run is saved in the run directory of
    that image, [results/planning/run_<timestamp of set_image>]; setting
    the image leaves the goal, the completed tasks, the current task, the
    history and the files as they are. *)
Theorem set_image_then_pipeline image stamp goal enable_thinking now w :
  ∃ w1 results w2,
    set_image chat_set_image image stamp w = Some (tt, w1)
    ∧ PlanningSession.goal (session w1) = PlanningSession.goal (session w)
    ∧ PlanningSession.completed_tasks (session w1)
      = PlanningSession.completed_tasks (session w)
    ∧ PlanningSession.current_task (session w1)
      = PlanningSession.current_task (session w)
    ∧ PlanningSession.task_history (session w1)
      = PlanningSession.task_history (session w)
    ∧ files (fs w1) = files (fs w)
    ∧ run_planning_pipeline chat_ask rand_draw goal enable_thinking now w1
      = Some (results, w2)
    ∧ files (fs w2)
        !! path_join (path_join RESULTS_BASE_DIR ("run_" +:+ stamp))
             "pipeline_results.json"
      = Some (JsonFile results).
Proof.
  set (d := path_join RESULTS_BASE_DIR ("run_" +:+ stamp)).
  set (w1 := {| chat := chat_set_image (chat w) image;
                session := PlanningSession.set_run_dir (session w) (Some d);
                run_dir := Some d; rng := rng w; fs := mkdir d (fs w) |}).
  exists w1. rewrite run_planning_pipeline_outcome.
  destruct (pipeline_outcome chat_ask rand_draw goal enable_thinking now w1)
    as [results w2] eqn:E.
  exists results, w2. split; [reflexivity|]. do 5 (split; [reflexivity|]).
  split; [reflexivity|].
  pose proof (pipeline_outcome_files goal enable_thinking now w1 d eq_refl) as Hf.
  rewrite E in Hf. cbn [fst snd] in Hf. rewrite Hf.
  rewrite lookup_insert_ne by apply results_summary_paths_differ.
  by rewrite lookup_insert_eq.
Qed.

End PipelineMore.

Lemma pipeline_results_independent_of_session_witness :
  chat (fresh_world [ {[ "answer" := "1. pick up the red block" ]} ])
  = chat (busy_world [ {[ "answer" := "1. pick up the red block" ]} ])
  ∧ rng (fresh_world [ {[ "answer" := "1. pick up the red block" ]} ])
    = rng (busy_world [ {[ "answer" := "1. pick up the red block" ]} ])
  ∧ fst <$> demo_run "2024-01-01T12:00:00"
              (fresh_world [ {[ "answer" := "1. pick up the red block" ]} ])
    = fst <$> demo_run "2024-01-01T12:00:00"
                (busy_world [ {[ "answer" := "1. pick up the red block" ]} ]).
Proof.
  split; [reflexivity|]. split; [reflexivity|].
  apply (pipeline_results_independent_of_session scripted_ask counter_draw);
    reflexivity.
Defined.

Lemma pipeline_files_read_back_witness :
  run_dir (busy_world []) = Some demo_run_dir
  ∧ ∃ results w',
      demo_run "2024-01-01T12:00:00" (busy_world []) = Some (results, w')
      ∧ files (fs w') !! path_join demo_run_dir "pipeline_results.json"
        = Some (JsonFile results)
      ∧ files (fs w') !! path_join demo_run_dir "pipeline_summary.txt"
        = Some (TextFile (summary_text results))
      ∧ files (fs w') !! path_join demo_run_dir "notes.txt" = Some (TextFile "keep").
Proof.
  split; [reflexivity|].
  destruct (pipeline_files_read_back scripted_ask counter_draw "stack the blocks"
              false "2024-01-01T12:00:00" (busy_world []) demo_run_dir eq_refl)
    as (results & w' & E & Hj & Hs & Ho).
  exists results, w'. split; [exact E|]. split; [exact Hj|]. split; [exact Hs|].
  rewrite Ho; [reflexivity | by vm_compute | by vm_compute].
Defined.

(** ** Lines of input *)

Section Lines.

Implicit Types (s t pre word sep arg post rest : string) (c : ascii).

Lemma lstrip_all_space pre s : all_space pre = true → PyStr.lstrip (pre +:+ s) = PyStr.lstrip s.
Proof.
  induction pre as [|c pre IH]; [done|]. simpl.
  intros [Hc H]%andb_true_iff. rewrite Hc. by apply IH.
Qed.

Lemma lstrip_head s c s' : PyStr.lstrip s = String c s' → PyStr.isspace c = false.
Proof.
  induction s as [|d s IH]; [done|]. simpl.
  destruct (PyStr.isspace d) eqn:E; [done|]. by intros [= <- _].
Qed.

Lemma lstrip_id c s : PyStr.isspace c = false → PyStr.lstrip (String c s) = String c s.
Proof. intros H. simpl. by rewrite H. Qed.

Lemma rstrip_all_space_nil post : all_space post = true → PyStr.rstrip post = "".
Proof.
  induction post as [|c post IH]; [done|]. simpl.
  intros [Hc H]%andb_true_iff. by rewrite IH, Hc.
Qed.

Lemma rstrip_all_space s post :
  all_space post = true → PyStr.rstrip (s +:+ post) = PyStr.rstrip s.
Proof.
  intros H. induction s as [|c s IH].
  - rewrite str_app_nil_l. by apply rstrip_all_space_nil.
  - rewrite str_app_cons. simpl. by rewrite IH.
Qed.

Lemma rstrip_id s c :
  last_char s = Some c → PyStr.isspace c = false → PyStr.rstrip s = s.
Proof.
  induction s as [|d s IH]; [done|]. intros Hl Hc. simpl.
  destruct s as [|e s].
  - simpl in *. injection Hl as ->. by rewrite Hc.
  - rewrite IH by done. reflexivity.
Qed.

Lemma rstrip_head s c r : PyStr.rstrip s = String c r → ∃ s', s = String c s'.
Proof.
  destruct s as [|d s]; [done|]. simpl.
  destruct (PyStr.rstrip s); [destruct (PyStr.isspace d)|]; intros [= <- _]; eauto.
Qed.

(** What [strip] returns does not start with white space. *)
Lemma strip_head s c r : PyStr.strip s = String c r → PyStr.isspace c = false.
Proof.
  unfold PyStr.strip. intros [s' H]%rstrip_head. by eapply lstrip_head.
Qed.

Lemma no_space_last word :
  no_space word = true → PyStr.truthy word = true →
  ∃ c, last_char word = Some c ∧ PyStr.isspace c = false.
Proof.
  induction word as [|c word IH]; [done|]. simpl.
  intros [Hc H]%andb_true_iff _. apply negb_true_iff in Hc.
  destruct word as [|d word]; [by exists c|]. by apply IH.
Qed.

Lemma take_word_app word rest :
  no_space word = true → PyStr.truthy rest = true → all_space rest = true →
  PyText.take_word (word +:+ rest) = word ∧ PyText.drop_word (word +:+ rest) = rest.
Proof.
  intros Hw Hr Hs. induction word as [|c word IH].
  - rewrite str_app_nil_l. destruct rest as [|d rest]; [done|].
    simpl in *. apply andb_true_iff in Hs as [-> _]. done.
  - simpl in Hw. apply andb_true_iff in Hw as [Hc Hw]. apply negb_true_iff in Hc.
    rewrite str_app_cons. simpl. rewrite Hc.
    destruct (IH Hw) as [-> ->]. done.
Qed.

Lemma take_word_app_space word sep rest :
  no_space word = true → PyStr.truthy sep = true → all_space sep = true →
  PyText.take_word (word +:+ sep +:+ rest) = word
  ∧ PyText.drop_word (word +:+ sep +:+ rest) = sep +:+ rest.
Proof.
  intros Hw Hr Hs. induction word as [|c word IH].
  - rewrite str_app_nil_l. destruct sep as [|d sep]; [done|].
    simpl in Hs. apply andb_true_iff in Hs as [Hd _].
    rewrite str_app_cons. simpl. by rewrite Hd.
  - simpl in Hw. apply andb_true_iff in Hw as [Hc Hw]. apply negb_true_iff in Hc.
    rewrite str_app_cons. simpl. rewrite Hc.
    destruct (IH Hw) as [-> ->]. done.
Qed.

Lemma take_word_id word :
  no_space word = true →
  PyText.take_word word = word ∧ PyText.drop_word word = "".
Proof.
  induction word as [|c word IH]; [done|]. simpl.
  intros [Hc Hw]%andb_true_iff. apply negb_true_iff in Hc. rewrite Hc.
  by destruct (IH Hw) as [-> ->].
Qed.

(** A line made of a word and a stripped argument, with white space
    around and between: [strip] and [split(maxsplit=1)] give back the word
    and the argument. *)
Lemma input_line_split pre word sep arg post :
  all_space pre = true → all_space sep = true → all_space post = true →
  no_space word = true → PyStr.truthy word = true →
  PyStr.strip arg = arg →
  (PyStr.truthy arg = true → PyStr.truthy sep = true) →
  PyStr.strip (input_line pre word sep arg post)
  = word +:+ (if PyStr.truthy arg then sep +:+ arg else "")
  ∧ PyText.split_once (PyStr.strip (input_line pre word sep arg post))
    = word :: (if PyStr.truthy arg then [arg] else []).
Proof.
  intros Hpre Hsep Hpost Hw Hwt Harg Hsa.
  destruct (no_space_last word Hw Hwt) as (cl & Hcl & Hcls).
  destruct word as [|cw word']; [done|]. set (word := String cw word') in *.
  assert (PyStr.isspace cw = false) as Hcw
    by (simpl in Hw; apply andb_true_iff in Hw as [H _]; by apply negb_true_iff).
  assert (PyStr.strip (input_line pre word sep arg post)
          = word +:+ (if PyStr.truthy arg then sep +:+ arg else "")) as Hstrip.
  { unfold input_line, PyStr.strip. rewrite lstrip_all_space by done.
    subst word. rewrite str_app_cons, lstrip_id by done. rewrite <- str_app_cons.
    destruct arg as [|ca arg'].
    - simpl PyStr.truthy. cbv iota. rewrite str_app_nil_l, str_app_nil_r.
      rewrite <- str_app_assoc, rstrip_all_space by done.
      rewrite rstrip_all_space by done. by eapply rstrip_id.
    - simpl PyStr.truthy. cbv iota.
      destruct (last_char (PyStr.strip (String ca arg'))) as [ce|] eqn:El.
      2:{ apply last_char_none in El. by rewrite Harg in El. }
      pose proof (strip_last _ _ El) as Hce. rewrite Harg in El.
      rewrite <- !str_app_assoc. rewrite rstrip_all_space by done.
      eapply rstrip_id; [|exact Hce].
      by rewrite last_char_app. }
  split; [exact Hstrip|]. rewrite Hstrip. unfold PyText.split_once.
  subst word. rewrite str_app_cons, lstrip_id by done. rewrite <- str_app_cons.
  destruct arg as [|ca arg'].
  - simpl PyStr.truthy. cbv iota. rewrite str_app_nil_r.
    destruct (take_word_id (String cw word') Hw) as [-> ->]. done.
  - simpl PyStr.truthy. cbv iota.
    destruct (take_word_app_space (String cw word') sep (String ca arg') Hw
                (Hsa eq_refl) Hsep) as [-> ->].
    rewrite lstrip_all_space by done.
    assert (PyStr.isspace ca = false) as Hca
      by (eapply strip_head; exact Harg).
    by rewrite lstrip_id.
Qed.

Lemma lower_char_isspace c : PyStr.isspace (PyText.lower_char c) = PyStr.isspace c.
Proof. by destruct c as [[] [] [] [] [] [] [] []]. Qed.

Lemma lower_char_slash c :
  Ascii.eqb "/" (PyText.lower_char c) = Ascii.eqb "/" c.
Proof. by destruct c as [[] [] [] [] [] [] [] []]. Qed.

Lemma lower_no_space s : no_space (PyText.lower s) = no_space s.
Proof.
  induction s as [|c s IH]; [done|]. simpl. by rewrite lower_char_isspace, IH.
Qed.

Lemma lower_truthy s : PyStr.truthy (PyText.lower s) = PyStr.truthy s.
Proof. by destruct s. Qed.

Lemma lower_startswith_slash s :
  PyStr.startswith (PyText.lower s) "/" = PyStr.startswith s "/".
Proof.
  destruct s as [|c s]; [done|]. cbn [PyText.lower PyStr.startswith].
  rewrite lower_char_slash. by destruct (PyText.lower s), s.
Qed.

Lemma startswith_char_app c s rest :
  PyStr.truthy s = true →
  PyStr.startswith (s +:+ rest) (String c "") = PyStr.startswith s (String c "").
Proof.
  destruct s as [|d s]; [done|]. intros _. rewrite str_app_cons.
  cbn [PyStr.startswith]. by rewrite !startswith_nil.
Qed.

End Lines.

(** ** The loop of [main] *)

Section LoopFacts.

Context {Chat Rng : Type}.
Variable chat_set_image : Chat → string → Chat.
Variable chat_ask : Chat → string → string → bool → gmap string string * Chat.
Variable chat_reset : Chat → Chat.
Variable chat_has_image : Chat → bool.
Variable rand_draw : Rng → nat * Rng.
Variable path_exists : string → option bool.

Implicit Types (w : @World Chat Rng) (line cmd arg word : string).

Abbreviation body :=
  (main_loop_body chat_set_image chat_ask chat_reset chat_has_image rand_draw
     path_exists).
Abbreviation command :=
  (run_command chat_set_image chat_ask chat_reset chat_has_image rand_draw
     path_exists).
Abbreviation query := (run_query chat_ask chat_has_image rand_draw).

Lemma split_once_strip line :
  PyStr.truthy (PyStr.strip line) = true →
  ∃ word rest, PyText.split_once (PyStr.strip line) = word :: rest.
Proof.
  destruct (PyStr.strip line) as [|c r] eqn:E; [done|]. intros _.
  apply strip_head in E. unfold PyText.split_once. rewrite lstrip_id by done.
  destruct (PyStr.lstrip _); eauto.
Qed.

Lemma query_map_entry alias qtype :
  dict_get query_map alias = Some qtype →
  no_space alias = true ∧ PyStr.truthy alias = true
  ∧ PyStr.startswith alias "/" = false
  ∧ PyStr.truthy qtype = true
  ∧ ∃ entry, dict_get PLANNING_TEMPLATES qtype = Some entry.
Proof.
  unfold query_map. cbn [dict_get].
  repeat match goal with
         | |- context [String.eqb ?k alias] =>
             destruct (String.eqb_spec k alias) as [<-|_];
             [intros [= <-]; do 4 (split; [reflexivity|]); eexists; reflexivity|]
         end.
  done.
Qed.

(** What a command does to the loop and to the world: it raises when it
    is [/image] with an argument the existence check raises on, and
    returns otherwise. *)
Lemma run_command_effect cmd arg enable_thinking stamp iso w :
  (cmd = "/image" ∧ PyStr.truthy arg = true ∧ path_exists arg = None
   ∧ command cmd arg enable_thinking stamp iso w = None)
  ∨ (¬ (cmd = "/image" ∧ PyStr.truthy arg = true ∧ path_exists arg = None)
     ∧ ∃ c thinking' w',
         command cmd arg enable_thinking stamp iso w = Some ((c, thinking'), w')
         ∧ (c = Break ↔ PyText.among cmd ["/quit"; "/exit"; "/q"] = true)
         ∧ (c = Break → thinking' = enable_thinking ∧ w' = w)
         ∧ (cmd ≠ "/pipeline" →
            rng w' = rng w ∧ files (fs w') = files (fs w)
            ∧ (chat w' = chat w ∨ chat w' = chat_reset (chat w)
               ∨ ∃ image, chat w' = chat_set_image (chat w) image))).
Proof.
  destruct (String.eqb_spec cmd "/image") as [->|Hni].
  { unfold run_command. cbn [PyText.among existsb String.eqb Ascii.eqb Bool.eqb orb].
    destruct (PyStr.truthy arg) eqn:Ht.
    2:{ right. split; [by intros (_ & [=] & _)|].
        eexists _, _, _. split; [reflexivity|]. repeat split; auto; done. }
    destruct (path_exists arg) as [found|] eqn:He.
    2:{ left. by repeat split. }
    right. split; [by intros (_ & _ & [=])|].
    destruct (found || PyStr.startswith arg "http");
      eexists _, _, _; (split; [reflexivity|]);
      repeat split; auto; try done; cbn [chat]; eauto. }
  right. split; [by intros (? & _)|].
  unfold run_command.
  destruct (PyText.among cmd ["/quit"; "/exit"; "/q"]) eqn:Hq.
  { eexists _, _, _. split; [reflexivity|]. repeat split; auto. }
  repeat match goal with
         | |- context [String.eqb cmd ?k] =>
             destruct (String.eqb_spec cmd k) as [->|?]
         end;
    try done;
    try (repeat match goal with
                | |- context [if ?b then _ else _] => destruct b eqn:?
                end;
         eexists _, _, _; (split; [reflexivity|]);
         repeat split; auto; try done; cbn [chat]; eauto; fail).
  (* /pipeline *)
  unfold bind, has_image, get_session.
  destruct (chat_has_image (chat w)); cbn [negb].
  2:{ eexists _, _, _. split; [reflexivity|]. repeat split; auto; done. }
  destruct (if PyStr.truthy arg then Some arg else PlanningSession.goal (session w))
    as [goal|].
  2:{ eexists _, _, _. split; [reflexivity|]. repeat split; auto; done. }
  destruct (PyStr.truthy goal).
  2:{ eexists _, _, _. split; [reflexivity|]. repeat split; auto; done. }
  rewrite run_planning_pipeline_outcome.
  destruct (pipeline_outcome _ _ _ _ _ _) as [results w'].
  eexists _, _, _. split; [reflexivity|]. repeat split; auto; done.
Qed.

(** What a query line does: the chat is asked, the loop continues. *)
Lemma run_query_effect line enable_thinking w :
  PyStr.truthy (PyStr.strip line) = true →
  ∃ w', query (PyStr.strip line) enable_thinking w
        = Some ((Continue, enable_thinking), w').
Proof.
  intros Ht. unfold run_query, bind, has_image.
  destruct (chat_has_image (chat w)); cbn [negb]; [|by eexists].
  destruct (split_once_strip line Ht) as (word & rest & ->).
  destruct (dict_get query_map (PyText.lower word)) as [qtype|] eqn:Hq.
  - destruct (query_map_entry _ _ Hq) as (_ & _ & _ & -> & entry & Hget).
    rewrite (ask_planning_exact chat_ask rand_draw _ _ _ _ entry Hget). by eexists.
  - unfold ask_custom, bind, ask.
    destruct (chat_ask (chat w) _ "general" enable_thinking). by eexists.
Qed.

(** The second part of [split(maxsplit=1)] is never empty. *)
Lemma split_once_rest s word rest :
  PyText.split_once s = word :: rest →
  rest = [] ∨ ∃ arg, rest = [arg] ∧ PyStr.truthy arg = true.
Proof.
  unfold PyText.split_once. destruct (PyStr.lstrip s) as [|c r]; [done|].
  destruct (PyStr.lstrip (PyText.drop_word (String c r))) as [|d r'].
  - intros [= _ <-]. by left.
  - intros [= _ <-]. right. by eexists.
Qed.

(** A pass of the loop raises on the [/image] command with an argument
    the existence check raises on; on any other line it returns, and what
    it returns is as follows. *)
Lemma main_loop_body_effect line enable_thinking stamp iso w :
  (image_check_raises path_exists line = true
   ∧ body line enable_thinking stamp iso w = None)
  ∨ (image_check_raises path_exists line = false
     ∧ ∃ c thinking' w',
         body line enable_thinking stamp iso w = Some ((c, thinking'), w')
         ∧ (c = Break
            ↔ PyStr.startswith (PyStr.strip line) "/" = true
              ∧ ∃ word, head (PyText.split_once (PyStr.strip line)) = Some word
                        ∧ PyText.among (PyText.lower word) ["/quit"; "/exit"; "/q"]
                          = true)
         ∧ (c = Break → thinking' = enable_thinking ∧ w' = w)
         ∧ (PyStr.startswith (PyStr.strip line) "/" = true →
            PyText.lower <$> head (PyText.split_once (PyStr.strip line))
            ≠ Some "/pipeline" →
            rng w' = rng w ∧ files (fs w') = files (fs w)
            ∧ (chat w' = chat w ∨ chat w' = chat_reset (chat w)
               ∨ ∃ image, chat w' = chat_set_image (chat w) image))).
Proof.
  unfold main_loop_body, image_check_raises.
  destruct (PyStr.truthy (PyStr.strip line)) eqn:Ht; cbn [negb].
  2:{ right. destruct (PyStr.strip line); [|done]. split; [done|].
      eexists _, _, _. split; [reflexivity|]. repeat split; try done.
      by intros [? _]. }
  destruct (PyStr.startswith (PyStr.strip line) "/") eqn:Hs; cbn [andb].
  2:{ right. split; [done|].
      destruct (run_query_effect line enable_thinking w Ht) as (w' & E).
      eexists _, _, _. split; [exact E|]. repeat split; try done.
      by intros [? _]. }
  destruct (split_once_strip line Ht) as (word & rest & E). rewrite E.
  cbn [head fmap option_fmap option_map].
  destruct (run_command_effect (PyText.lower word)
              (match rest with a :: _ => a | [] => "" end)
              enable_thinking stamp iso w)
    as [(Hc & Ha & He & Hn)|(Hno & c & t & w' & Ec & Hb & Hw & Hf)].
  - left. split; [|exact Hn].
    destruct (split_once_rest _ _ _ E) as [->|(arg & -> & _)]; [done|].
    by rewrite Hc, He.
  - right. split.
    + destruct (split_once_rest _ _ _ E) as [->|(arg & -> & Harg)]; [done|].
      destruct (String.eqb_spec (PyText.lower word) "/image") as [Hi|]; [|done].
      destruct (path_exists arg) eqn:He; [done|]. by destruct Hno.
    + exists c, t, w'. split; [exact Ec|]. split; [|split; [exact Hw|]].
      * rewrite Hb. split.
        -- intros H. split; [done|]. by exists word.
        -- by intros [_ (word' & [= <-] & H)].
      * intros _ Hp. apply Hf. congruence.
Qed.


(** No command but [/pipeline] asks the chat, draws from the random
    source or writes a file. The [/image] command raises when its argument
    makes the existence check raise, also when the argument starts with
    "http"; every other command line returns, with the chat left as it is,
    or reset, or given an image. *)
Theorem commands_do_not_ask line enable_thinking stamp iso w :
  PyStr.startswith (PyStr.strip line) "/" = true →
  PyText.lower <$> head (PyText.split_once (PyStr.strip line)) ≠ Some "/pipeline" →
  (image_check_raises path_exists line = true
   ∧ body line enable_thinking stamp iso w = None)
  ∨ (image_check_raises path_exists line = false
     ∧ ∃ c thinking' w',
         body line enable_thinking stamp iso w = Some ((c, thinking'), w')
         ∧ rng w' = rng w
         ∧ files (fs w') = files (fs w)
         ∧ (chat w' = chat w ∨ chat w' = chat_reset (chat w)
            ∨ ∃ image, chat w' = chat_set_image (chat w) image)).
Proof.
  intros Hs Hp.
  destruct (main_loop_body_effect line enable_thinking stamp iso w)
    as [H|(Hr & c & t & w' & E & _ & _ & Hf)]; [by left|].
  right. split; [exact Hr|]. exists c, t, w'. split; [exact E|]. by apply Hf.
Qed.

(** Without an image, a line that is no command leaves everything as it
    is: the chat is not asked. *)
Theorem query_without_image line enable_thinking stamp iso w :
  chat_has_image (chat w) = false →
  PyStr.startswith (PyStr.strip line) "/" = false →
  body line enable_thinking stamp iso w = Some ((Continue, enable_thinking), w).
Proof.
  intros Hi Hs. unfold main_loop_body. rewrite Hs.
  destruct (PyStr.truthy (PyStr.strip line)); cbn [negb]; [|done].
  unfold run_query, bind, has_image. by rewrite Hi.
Qed.

(** The session commands, in any letter case and with any white space
    around the command and its argument: [/goal], [/done] and [/current]
    followed by text set the goal to the text (resetting the completed
    tasks and the current task), record the text as completed task, and
    make the text the current task. *)
Theorem session_command_line pre word sep arg post enable_thinking stamp iso w :
  all_space pre = true → all_space sep = true → all_space post = true →
  PyStr.truthy sep = true →
  PyStr.strip arg = arg → PyStr.truthy arg = true →
  PyText.among (PyText.lower word) ["/goal"; "/done"; "/current"] = true →
  body (input_line pre word sep arg post) enable_thinking stamp iso w
  = Some ((Continue, enable_thinking),
          with_session w (session_command (PyText.lower word) arg iso (session w))).
Proof.
  intros Hpre Hsep Hpost Hst Harg Hat Hcmd.
  assert (no_space word = true ∧ PyStr.truthy word = true
          ∧ PyStr.startswith word "/" = true) as (Hns & Hwt & Hsl).
  { rewrite <- lower_no_space, <- lower_truthy, <- lower_startswith_slash.
    cbn [PyText.among existsb] in Hcmd.
    repeat match type of Hcmd with
           | context [String.eqb (PyText.lower word) ?k] =>
               destruct (String.eqb_spec (PyText.lower word) k) as [->|?];
               [by vm_compute|]
           end.
    done. }
  destruct (input_line_split pre word sep arg post) as [Hstrip Hsplit]; auto.
  unfold main_loop_body. rewrite Hsplit, Hstrip, Hat.
  replace (PyStr.truthy (word +:+ sep +:+ arg)) with true by (by destruct word).
  rewrite startswith_char_app, Hsl by done.
  cbn [negb]. unfold run_command, session_command.
  cbn [PyText.among existsb] in Hcmd.
  repeat match type of Hcmd with
         | context [String.eqb (PyText.lower word) ?k] =>
             destruct (String.eqb_spec (PyText.lower word) k) as [->|?];
             [cbn; by rewrite Hat|]
         end.
  done.
Qed.

(** A query line, in any letter case: with an image set, a line whose
    first word is a short name of [query_map] asks the planning query of
    that type, with the rest of the line (stripped, possibly empty)
    supplied under the variable of the type. *)
Theorem query_line pre word sep arg post enable_thinking stamp iso w qtype :
  all_space pre = true → all_space sep = true → all_space post = true →
  (PyStr.truthy arg = true → PyStr.truthy sep = true) →
  PyStr.strip arg = arg →
  chat_has_image (chat w) = true →
  dict_get query_map (PyText.lower word) = Some qtype →
  body (input_line pre word sep arg post) enable_thinking stamp iso w
  = (λ x, ((Continue, enable_thinking), x.2))
    <$> ask_planning chat_ask rand_draw qtype enable_thinking
          (query_kwargs qtype arg) w.
Proof.
  intros Hpre Hsep Hpost Hst Harg Hi Hq.
  destruct (query_map_entry _ _ Hq) as (Hns & Hwt & Hsl & Hqt & entry & Hget).
  rewrite lower_no_space in Hns. rewrite lower_truthy in Hwt.
  rewrite lower_startswith_slash in Hsl.
  destruct (input_line_split pre word sep arg post) as [Hstrip Hsplit]; auto.
  unfold main_loop_body. rewrite Hsplit, Hstrip.
  replace (PyStr.truthy (word +:+ _)) with true by (by destruct word).
  rewrite startswith_char_app, Hsl by done.
  cbn [negb]. unfold run_query, bind at 1, has_image. rewrite Hi. cbn [negb].
  rewrite <- Hstrip, Hsplit, Hq, Hqt.
  replace (match (if PyStr.truthy arg then [arg] else []) with
           | [] => "" | a :: _ => a end) with arg by (by destruct arg).
  unfold bind.
  by destruct (ask_planning chat_ask rand_draw qtype enable_thinking _ w) as [[]|].
Qed.

(** A line that is no command and whose first word is no short name is
    sent to the chat as it was typed, white space around it removed and
    letter case kept, with the task "general"; no random number is drawn
    and the session, the run directory and the files stay as they are. *)
Theorem custom_line line enable_thinking stamp iso w :
  chat_has_image (chat w) = true →
  PyStr.truthy (PyStr.strip line) = true →
  PyStr.startswith (PyStr.strip line) "/" = false →
  (∀ word, head (PyText.split_once (PyStr.strip line)) = Some word →
           dict_get query_map (PyText.lower word) = None) →
  body line enable_thinking stamp iso w
  = Some ((Continue, enable_thinking),
          {| chat := (chat_ask (chat w) (PyStr.strip line) "general" enable_thinking).2;
             session := session w; run_dir := run_dir w; rng := rng w;
             fs := fs w |}).
Proof.
  intros Hi Ht Hs Hq. unfold main_loop_body. rewrite Ht, Hs. cbn [negb].
  unfold run_query, bind at 1, has_image. rewrite Hi. cbn [negb].
  destruct (split_once_strip line Ht) as (word & rest & E). rewrite E in *.
  rewrite (Hq word eq_refl).
  unfold ask_custom, bind, ask.
  by destruct (chat_ask (chat w) _ "general" enable_thinking).
Qed.

Lemma command_goal (goal : string) enable_thinking stamp iso w :
  PyStr.truthy goal = true →
  command "/goal" goal enable_thinking stamp iso w
  = Some ((Continue, enable_thinking),
          with_session w (PlanningSession.set_goal (session w) goal)).
Proof. intros Hg. unfold run_command. cbn. by rewrite Hg. Qed.

Lemma command_pipeline arg (goal : string) enable_thinking stamp iso w :
  chat_has_image (chat w) = true →
  (if PyStr.truthy arg then Some arg else PlanningSession.goal (session w))
  = Some goal →
  PyStr.truthy goal = true →
  command "/pipeline" arg enable_thinking stamp iso w
  = Some ((Continue, enable_thinking),
          (pipeline_outcome chat_ask rand_draw goal enable_thinking iso w).2).
Proof.
  intros Hi Ha Hg. unfold run_command. cbn [PyText.among existsb].
  change (String.eqb "/pipeline" "/quit") with false.
  change (String.eqb "/pipeline" "/exit") with false.
  change (String.eqb "/pipeline" "/q") with false.
  change (String.eqb "/pipeline" "/help") with false.
  change (String.eqb "/pipeline" "/types") with false.
  change (String.eqb "/pipeline" "/image") with false.
  change (String.eqb "/pipeline" "/goal") with false.
  change (String.eqb "/pipeline" "/done") with false.
  change (String.eqb "/pipeline" "/current") with false.
  change (String.eqb "/pipeline" "/status") with false.
  change (String.eqb "/pipeline" "/pipeline") with true.
  cbn [orb]. cbv iota.
  unfold bind, has_image, get_session. rewrite Hi. cbn [negb]. rewrite Ha, Hg.
  rewrite run_planning_pipeline_outcome.
  by destruct (pipeline_outcome _ _ _ _ _ _).
Qed.

(** With an image set, setting the goal and then running the pipeline
    without argument is the same as running the pipeline with the goal as
    argument. *)
Theorem goal_then_pipeline (goal : string) enable_thinking stamp iso w :
  chat_has_image (chat w) = true →
  PyStr.truthy goal = true →
  match command "/goal" goal enable_thinking stamp iso w with
  | Some (_, w1) => command "/pipeline" "" enable_thinking stamp iso w1
  | None => None
  end
  = command "/pipeline" goal enable_thinking stamp iso w.
Proof.
  intros Hi Hg. rewrite command_goal by done.
  rewrite (command_pipeline "" goal) by done.
  rewrite (command_pipeline goal goal) by (by rewrite ?Hg).
  reflexivity.
Qed.

End LoopFacts.

(** The properties of the loop on concrete lines. *)

Lemma commands_do_not_ask_witness :
  PyStr.startswith (PyStr.strip image_line) "/" = true
  ∧ PyText.lower <$> head (PyText.split_once (PyStr.strip image_line))
    ≠ Some "/pipeline"
  ∧ ((image_check_raises short_path image_line = true
      ∧ checked_loop_body image_line true (loop_world []) = None)
     ∨ (image_check_raises short_path image_line = false
        ∧ ∃ c thinking' w',
            checked_loop_body image_line true (loop_world [])
            = Some ((c, thinking'), w')
            ∧ rng w' = rng (loop_world [])
            ∧ files (fs w') = files (fs (loop_world []))
            ∧ (chat w' = chat (loop_world [])
               ∨ chat w' = flagged_reset (chat (loop_world []))
               ∨ ∃ image, chat w' = flagged_set_image (chat (loop_world [])) image))).
Proof.
  assert (PyStr.startswith (PyStr.strip image_line) "/" = true) as H1 by reflexivity.
  assert (PyText.lower <$> head (PyText.split_once (PyStr.strip image_line))
          ≠ Some "/pipeline") as H2 by (vm_compute; congruence).
  split; [exact H1|]. split; [exact H2|].
  exact (commands_do_not_ask flagged_set_image flagged_ask flagged_reset
           flagged_has_image counter_draw short_path image_line
           true "20240101_120000" "2024-01-01T12:00:00" (loop_world []) H1 H2).
Defined.


(** The [/image] command on the two URLs: the first sets the image and
    creates the run directory, the second raises, the existence check
    coming before the test for "http". *)
Example image_command_on_urls :
  (λ x, (x.1, chat x.2, run_dir x.2)) <$> checked_loop_body image_line true (loop_world [])
  = Some ((Continue, true), (true, []), Some demo_run_dir)
  ∧ image_check_raises short_path long_image_line = true
  ∧ checked_loop_body long_image_line true (loop_world []) = None.
Proof. split; [|split]; vm_compute; reflexivity. Qed.

Lemma query_without_image_witness :
  flagged_has_image (chat (loop_world [])) = false
  ∧ PyStr.startswith (PyStr.strip "plan stack the blocks") "/" = false
  ∧ demo_loop_body "plan stack the blocks" true (loop_world [])
    = Some ((Continue, true), loop_world []).
Proof.
  assert (flagged_has_image (chat (loop_world [])) = false) as H1 by reflexivity.
  assert (PyStr.startswith (PyStr.strip "plan stack the blocks") "/" = false)
    as H2 by reflexivity.
  split; [exact H1|]. split; [exact H2|].
  exact (query_without_image flagged_set_image flagged_ask flagged_reset
           flagged_has_image counter_draw no_path "plan stack the blocks"
           true "20240101_120000" "2024-01-01T12:00:00" (loop_world []) H1 H2).
Defined.

Lemma session_command_line_witness :
  all_space "  " = true ∧ all_space "   " = true ∧ all_space " " = true
  ∧ PyStr.truthy "   " = true
  ∧ PyStr.strip "stack the blocks" = "stack the blocks"
  ∧ PyStr.truthy "stack the blocks" = true
  ∧ PyText.among (PyText.lower "/GOAL") ["/goal"; "/done"; "/current"] = true
  ∧ demo_loop_body "  /GOAL   stack the blocks " true (loop_world [])
    = Some ((Continue, true),
            with_session (loop_world [])
              (PlanningSession.set_goal PlanningSession.init "stack the blocks")).
Proof.
  repeat (split; [reflexivity|]).
  exact (session_command_line flagged_set_image flagged_ask flagged_reset
           flagged_has_image counter_draw no_path "  " "/GOAL" "   "
           "stack the blocks" " " true "20240101_120000" "2024-01-01T12:00:00"
           (loop_world []) eq_refl eq_refl eq_refl eq_refl eq_refl eq_refl eq_refl).
Defined.

Lemma query_line_witness :
  all_space "" = true ∧ all_space " " = true ∧ all_space "" = true
  ∧ (PyStr.truthy "grasp the cup" = true → PyStr.truthy " " = true)
  ∧ PyStr.strip "grasp the cup" = "grasp the cup"
  ∧ flagged_has_image (chat (image_loop_world []))
    = true
  ∧ dict_get query_map (PyText.lower "Can") = Some "affordance_positive"
  ∧ demo_loop_body "Can grasp the cup" false (image_loop_world [])
    = (λ x, ((Continue, false), x.2))
      <$> ask_planning flagged_ask counter_draw "affordance_positive" false
            {[ "task" := "grasp the cup" ]} (image_loop_world []).
Proof.
  repeat (split; [reflexivity || (intros _; reflexivity)|]).
  exact (query_line flagged_set_image flagged_ask flagged_reset
           flagged_has_image counter_draw no_path "" "Can" " "
           "grasp the cup" "" false "20240101_120000" "2024-01-01T12:00:00"
           (image_loop_world []) "affordance_positive"
           eq_refl eq_refl eq_refl (λ _, eq_refl) eq_refl eq_refl eq_refl).
Defined.

Lemma custom_line_witness :
  flagged_has_image (chat (image_loop_world [])) = true
  ∧ PyStr.truthy (PyStr.strip " What is on the Table? ") = true
  ∧ PyStr.startswith (PyStr.strip " What is on the Table? ") "/" = false
  ∧ (∀ word, head (PyText.split_once (PyStr.strip " What is on the Table? "))
             = Some word →
             dict_get query_map (PyText.lower word) = None)
  ∧ demo_loop_body " What is on the Table? " false (image_loop_world [])
    = Some ((Continue, false),
            {| chat := (flagged_ask (chat (image_loop_world []))
                          "What is on the Table?" "general" false).2;
               session := session (image_loop_world []);
               run_dir := run_dir (image_loop_world []);
               rng := rng (image_loop_world []);
               fs := fs (image_loop_world []) |}).
Proof.
  assert (∀ word, head (PyText.split_once (PyStr.strip " What is on the Table? "))
                  = Some word →
                  dict_get query_map (PyText.lower word) = None) as H
    by (intros word [= <-]; reflexivity).
  do 3 (split; [reflexivity|]). split; [exact H|].
  exact (custom_line flagged_set_image flagged_ask flagged_reset
           flagged_has_image counter_draw no_path " What is on the Table? "
           false "20240101_120000" "2024-01-01T12:00:00"
           (image_loop_world []) eq_refl eq_refl eq_refl H).
Defined.

Lemma goal_then_pipeline_witness :
  flagged_has_image (chat (image_loop_world [])) = true
  ∧ PyStr.truthy "stack the blocks" = true
  ∧ match demo_loop_body "/goal stack the blocks" false (image_loop_world []) with
    | Some (_, w1) => demo_loop_body "/pipeline" false w1
    | None => None
    end
    = demo_loop_body "/pipeline stack the blocks" false (image_loop_world []).
Proof.
  do 2 (split; [reflexivity|]).
  exact (goal_then_pipeline flagged_set_image flagged_ask flagged_reset
           flagged_has_image counter_draw no_path "stack the blocks" false
           "20240101_120000" "2024-01-01T12:00:00" (image_loop_world [])
           eq_refl eq_refl).
Defined.

(** ** The extracted task *)

Section ExtractedTask.

Implicit Types (s line : string) (c : ascii).

Lemma split_without sep s : Forall (λ l, without_char sep l = true) (PyStr.split sep s).
Proof.
  induction s as [|c s IH]; [by repeat constructor|]. cbn [PyStr.split].
  destruct (Ascii.eqb c sep) eqn:E; [by constructor|].
  destruct (PyStr.split sep s) as [|l ls]; [by repeat constructor; simpl; rewrite E|].
  inversion IH as [|? ? Hl Hls]; subst. constructor; [|done].
  simpl. by rewrite E, Hl.
Qed.

Lemma lstrip_without c s : without_char c s = true → without_char c (PyStr.lstrip s) = true.
Proof.
  induction s as [|d s IH]; [done|]. intros H. simpl.
  destruct (PyStr.isspace d); [|done].
  simpl in H. apply andb_true_iff in H as [_ H]. by apply IH.
Qed.

Lemma rstrip_without c s : without_char c s = true → without_char c (PyStr.rstrip s) = true.
Proof.
  induction s as [|d s IH]; [done|]. simpl. intros [Hd H]%andb_true_iff.
  specialize (IH H). destruct (PyStr.rstrip s) as [|e r].
  - destruct (PyStr.isspace d); [done|]. simpl. by rewrite Hd.
  - simpl in *. rewrite Hd. exact IH.
Qed.

Lemma drop_without c n s : without_char c s = true → without_char c (PyStr.drop n s) = true.
Proof.
  revert s. induction n as [|n IH]; intros [|d s]; try done. simpl.
  intros [_ H]%andb_true_iff. by apply IH.
Qed.

Lemma take_without c n s : without_char c s = true → without_char c (PyStr.take n s) = true.
Proof.
  revert s. induction n as [|n IH]; intros [|d s]; try done. simpl.
  intros [-> H]%andb_true_iff. by apply IH.
Qed.

Lemma remove_prefix_without c line prefix :
  without_char c line = true → without_char c (remove_prefix line prefix) = true.
Proof.
  intros H. unfold remove_prefix. destruct (PyStr.startswith line prefix); [|done].
  by apply drop_without.
Qed.

(** A task that is extracted is one line of text: it is not empty, it has
    at most 100 characters and no newline in it. *)
Theorem extracted_task_is_one_line (answer tk : string) :
  _extract_task_from_answer answer = Some tk →
  PyStr.truthy tk = true ∧ PyStr.len tk ≤ 100 ∧ without_char newline tk = true.
Proof.
  intros H. split; [by eapply extract_task_truthy|].
  unfold _extract_task_from_answer in H.
  pose proof (extract_task_loop_spec (PyStr.split newline answer)) as S.
  rewrite H in S. destruct S as (before & line & after & E & _ & _ & ->).
  split; [apply len_take|].
  pose proof (split_without newline answer) as Hw. rewrite E in Hw.
  apply Forall_app in Hw as [_ Hw]. inversion Hw as [|? ? Hl _]; subst.
  apply take_without. cbn [fold_left task_prefixes].
  do 5 apply remove_prefix_without. by apply rstrip_without, lstrip_without.
Qed.

Lemma extracted_task_is_one_line_witness :
  _extract_task_from_answer
    ("Sure." +:+ String newline ("  - grasp the red block  " +:+ String newline "Then lift it."))
  = Some "grasp the red block"
  ∧ PyStr.truthy "grasp the red block" = true
  ∧ PyStr.len "grasp the red block" ≤ 100
  ∧ without_char newline "grasp the red block" = true.
Proof.
  assert (_extract_task_from_answer
            ("Sure." +:+ String newline
               ("  - grasp the red block  " +:+ String newline "Then lift it."))
          = Some "grasp the red block") as H by reflexivity.
  split; [exact H|]. exact (extracted_task_is_one_line _ _ H).
Defined.

End ExtractedTask.
